(** * InvestLink: the swipe session, the interaction ledger client and the
      debounced search bar

    A shallow embedding of three React components of the front end:

    - [SwipeRecommendations] (fetchRecommendations, handleSwipe, the render
      cascade),
    - [InteractionHistory] (fetchHistory, updateInteraction, the per-item
      buttons),
    - [SearchBar] (the debounced effect and performSearch).

    Every [async] function of the source is written as a value of [Async],
    a finite tree whose nodes are the calls the function makes in order:
    a state setter, [console.error], [fetch], [response.json()] and
    [setTimeout].  A [try]/[catch]/[finally] becomes the pair of
    continuations of the awaited call: the rejected continuation is the
    [catch] block followed by the [finally] block.  A handler closes over
    the values of one render; it therefore takes the rendered state as an
    argument, while the setters act on the live state. *)

From Stdlib Require Import List String Bool Arith ZArith NArith Lia DecimalString.
Import ListNotations.

Set Implicit Arguments.
Open Scope string_scope.
Open Scope list_scope.
Open Scope nat_scope.

(** ** JavaScript values exchanged with the server *)

Module Js.

(** [String(n)] of a non-negative integer, as a template literal prints it. *)
Definition show (n : nat) : string := NilEmpty.string_of_uint (Nat.to_uint n).

(** The property values the components pass to [JSON.stringify]. *)
Inductive Value :=
| Bool (b : bool)
| Num (z : Z).

Definition Object := list (string * Value).

End Js.

(** A candidate as the server sends it; of its many display fields the
    handlers read only the two identifiers. *)
Record Candidate := {
  company_id : nat;
  user_id : nat;
  name : string
}.

Module Data.

(** A parsed response body, seen through the properties the components
    read.  [None] is a property that is absent ([undefined]); an error
    body such as [{ detail: ... }] has none of the four. *)
Record t := {
  recommendations : option (list Candidate);
  liked : option (list Candidate);
  disliked : option (list Candidate);
  results : option (list Candidate)
}.

Definition empty : t :=
  {| recommendations := None; liked := None; disliked := None; results := None |}.

End Data.

(** What [response.json()] can resolve with. Reading a property of [Null]
    throws a TypeError. *)
Inductive Json :=
| Null
| Obj (d : Data.t).

Inductive Method := GET | POST | PUT.

Record Request := {
  method : Method;
  url : string;
  headers : list (string * string);
  body : option Js.Object
}.

(** [fetch(endpoint)] *)
Definition get (endpoint : string) : Request :=
  {| method := GET; url := endpoint; headers := []; body := None |}.

(** [fetch(endpoint, { method, headers: { "Content-Type": "application/json" },
    body: JSON.stringify(o) })] *)
Definition send (m : Method) (endpoint : string) (o : Js.Object) : Request :=
  {| method := m; url := endpoint;
     headers := [("Content-Type", "application/json")]; body := Some o |}.

(** A response: its HTTP status and its body, [None] when the body is not
    JSON (then [response.json()] rejects). *)
Record Response := {
  status : nat;
  payload : option Json
}.

(** [response.ok] *)
Definition ok (r : Response) : bool := (200 <=? status r) && (status r <=? 299).

(** How the promise returned by [fetch] settles: it is rejected on a
    transport failure only; every HTTP status fulfils it. *)
Inductive Settled :=
| Fulfilled (r : Response)
| Rejected.

(** ** Asynchronous handlers *)

Inductive Async (St : Type) : Type :=
| Done
| Update (f : St -> St) (k : Async St)
| ConsoleError (msg : string) (k : Async St)
| Fetch (req : Request) (onFulfilled : Response -> Async St) (onRejected : Async St)
| ReadJson (r : Response) (onFulfilled : Json -> Async St) (onRejected : Async St)
| SetTimeout (ms : nat) (callback : Async St) (k : Async St).

Arguments Done {St}.

(** What a handler does to the outside world. *)
Inductive Effect :=
| Sent (req : Request)
| Logged (msg : string).

Definition requests (t : list Effect) : list Request :=
  flat_map (fun e => match e with Sent r => [r] | Logged _ => [] end) t.

(** *** Running one handler to completion

    [net] answers every request; a timer fires once the code that set it
    has finished. *)
Fixpoint run (St : Type) (net : Request -> Settled) (p : Async St) (s : St)
  : St * list Effect :=
  match p with
  | Done => (s, [])
  | Update f k => run net k (f s)
  | ConsoleError msg k =>
      let (s', t) := run net k s in (s', Logged msg :: t)
  | Fetch req onFulfilled onRejected =>
      let (s', t) :=
        match net req with
        | Fulfilled r => run net (onFulfilled r) s
        | Rejected => run net onRejected s
        end in
      (s', Sent req :: t)
  | ReadJson r onFulfilled onRejected =>
      match payload r with
      | Some data => run net (onFulfilled data) s
      | None => run net onRejected s
      end
  | SetTimeout _ callback k =>
      let (s1, t1) := run net k s in
      let (s2, t2) := run net callback s1 in
      (s2, t1 ++ t2)
  end.

(** *** The event loop

    Between two awaits other events may run.  A system is the live state,
    the suspended continuations and the effects so far. *)
Inductive Task (St : Type) : Type :=
| AwaitingFetch (req : Request) (onFulfilled : Response -> Async St) (onRejected : Async St)
| AwaitingJson (r : Response) (onFulfilled : Json -> Async St) (onRejected : Async St)
| Timer (ms : nat) (callback : Async St).

Record Sys (St : Type) : Type := {
  live : St;
  tasks : list (Task St);
  trace : list Effect
}.

Definition idle (St : Type) (s : St) : Sys St :=
  {| live := s; tasks := []; trace := [] |}.

(** Run the synchronous prefix of a handler, up to its next await. *)
Fixpoint exec (St : Type) (p : Async St) (sys : Sys St) : Sys St :=
  match p with
  | Done => sys
  | Update f k =>
      exec k {| live := f (live sys); tasks := tasks sys; trace := trace sys |}
  | ConsoleError msg k =>
      exec k {| live := live sys; tasks := tasks sys;
                trace := trace sys ++ [Logged msg] |}
  | Fetch req onFulfilled onRejected =>
      {| live := live sys;
         tasks := tasks sys ++ [AwaitingFetch req onFulfilled onRejected];
         trace := trace sys ++ [Sent req] |}
  | ReadJson r onFulfilled onRejected =>
      {| live := live sys;
         tasks := tasks sys ++ [AwaitingJson r onFulfilled onRejected];
         trace := trace sys |}
  | SetTimeout ms callback k =>
      exec k {| live := live sys; tasks := tasks sys ++ [Timer ms callback];
                trace := trace sys |}
  end.

Inductive Event (St : Type) : Type :=
| Invoke (handler : St -> Async St)   (* a user event calls a handler of the current render *)
| Settle (i : nat) (o : Settled)    (* the i-th pending fetch settles *)
| Resume (i : nat).                 (* the i-th pending timer fires, or body has been read *)

Arguments Settle {St}.
Arguments Resume {St}.

Fixpoint remove_nth (A : Type) (i : nat) (l : list A) : list A :=
  match i, l with
  | _, [] => []
  | 0, _ :: l' => l'
  | S i', x :: l' => x :: remove_nth i' l'
  end.

Definition without (St : Type) (i : nat) (sys : Sys St) : Sys St :=
  {| live := live sys; tasks := remove_nth i (tasks sys); trace := trace sys |}.

Definition step (St : Type) (sys : Sys St) (e : Event St) : Sys St :=
  match e with
  | Invoke handler => exec (handler (live sys)) sys
  | Settle i o =>
      match nth_error (tasks sys) i, o with
      | Some (AwaitingFetch _ onFulfilled _), Fulfilled r =>
          exec (onFulfilled r) (without i sys)
      | Some (AwaitingFetch _ _ onRejected), Rejected =>
          exec onRejected (without i sys)
      | _, _ => sys
      end
  | Resume i =>
      match nth_error (tasks sys) i with
      | Some (Timer _ callback) => exec callback (without i sys)
      | Some (AwaitingJson r onFulfilled onRejected) =>
          match payload r with
          | Some data => exec (onFulfilled data) (without i sys)
          | None => exec onRejected (without i sys)
          end
      | _ => sys
      end
  end.

Definition steps (St : Type) (sys : Sys St) (es : list (Event St)) : Sys St :=
  fold_left (@step St) es sys.

(** ** SwipeRecommendations *)

Inductive ViewerType := investor | company.

Record Props := {
  type : ViewerType;
  userId : nat
}.

Definition isInvestor (props : Props) : bool :=
  match type props with investor => true | company => false end.

Module SwipeRecommendations.

Inductive Direction := Left | Right.

Record State := {
  recommendations : list Candidate;
  currentIndex : nat;
  loading : bool;
  swiping : option Direction;
  noMore : bool;
  error : option string
}.

(** The [useState] defaults. *)
Definition initial : State :=
  {| recommendations := []; currentIndex := 0; loading := false;
     swiping := None; noMore := false; error := None |}.

Definition setRecommendations (v : list Candidate) (s : State) : State :=
  {| recommendations := v; currentIndex := currentIndex s; loading := loading s;
     swiping := swiping s; noMore := noMore s; error := error s |}.

(** [setCurrentIndex] is called with a value and with an updater. *)
Definition setCurrentIndex (f : nat -> nat) (s : State) : State :=
  {| recommendations := recommendations s; currentIndex := f (currentIndex s);
     loading := loading s; swiping := swiping s; noMore := noMore s;
     error := error s |}.

Definition setLoading (v : bool) (s : State) : State :=
  {| recommendations := recommendations s; currentIndex := currentIndex s;
     loading := v; swiping := swiping s; noMore := noMore s; error := error s |}.

Definition setSwiping (v : option Direction) (s : State) : State :=
  {| recommendations := recommendations s; currentIndex := currentIndex s;
     loading := loading s; swiping := v; noMore := noMore s; error := error s |}.

Definition setNoMore (v : bool) (s : State) : State :=
  {| recommendations := recommendations s; currentIndex := currentIndex s;
     loading := loading s; swiping := swiping s; noMore := v; error := error s |}.

Definition setError (v : option string) (s : State) : State :=
  {| recommendations := recommendations s; currentIndex := currentIndex s;
     loading := loading s; swiping := swiping s; noMore := noMore s; error := v |}.

Definition recommendationsEndpoint (props : Props) : string :=
  (if isInvestor props
   then "http://localhost:8000/api/recommendations/investor/"
          ++ Js.show (userId props) ++ "?num=5"
   else "http://localhost:8000/api/recommendations/company/"
          ++ Js.show (userId props) ++ "?num=5")%string.

Definition fetchRecommendations (props : Props) : Async State :=
  let finally_ := Update (setLoading false) Done in
  let catch_ :=
    Update (setError (Some "Failed to load recommendations"))
      (ConsoleError "" finally_) in
  Update (setLoading true)
 (Update (setError None)
 (Fetch (get (recommendationsEndpoint props))
    (fun response =>
       ReadJson response
         (fun data =>
            match data with
            | Null => catch_
            | Obj d =>
                match Data.recommendations d with
                | Some (c :: l) =>
                    Update (setRecommendations (c :: l))
                   (Update (setCurrentIndex (fun _ => 0))
                   (Update (setNoMore false) finally_))
                | Some [] | None =>
                    Update (setNoMore true) finally_
                end
            end)
         catch_)
    catch_)).

Definition swipeEndpoint (props : Props) (targetId : nat) : string :=
  (if isInvestor props
   then "http://localhost:8000/api/swipe/investor/" ++ Js.show (userId props)
          ++ "/company/" ++ Js.show targetId
   else "http://localhost:8000/api/swipe/company/" ++ Js.show (userId props)
          ++ "/investor/" ++ Js.show targetId)%string.

Definition is_set (A : Type) (o : option A) : bool :=
  match o with Some _ => true | None => false end.

(** [s] is the render the handler was created in: the guard, [current]
    and the test inside the timer read it, only the updater
    [prev => prev + 1] reads the live state. *)
Definition handleSwipe (props : Props) (s : State) (liked : bool) : Async State :=
  if is_set (swiping s) || (List.length (recommendations s) <=? currentIndex s)
  then Done
  else
    match nth_error (recommendations s) (currentIndex s) with
    | None => Done
    | Some current =>
        let targetId :=
          if isInvestor props then company_id current else user_id current in
        Update (setSwiping (Some (if liked then Right else Left)))
       (Fetch (send POST (swipeEndpoint props targetId) [("like", Js.Bool liked)])
          (fun _ =>
             SetTimeout 300
               (Update (setSwiping None)
                  (if List.length (recommendations s) <=? currentIndex s + 1
                   then Update (setNoMore true) Done
                   else Update (setCurrentIndex (fun prev => prev + 1)) Done))
               Done)
          (ConsoleError "Swipe failed:" (Update (setSwiping None) Done)))
    end.

(** The render cascade: which of the four screens is returned. *)
Inductive View :=
| Spinner                         (* Finding matches... *)
| AllCaughtUp                     (* All caught up!  [Load More] *)
| ErrorMessage (msg : string)     (* the message and [Try Again] *)
| Card (current : Candidate) (disabled : bool).

Definition render (s : State) : View :=
  let current := nth_error (recommendations s) (currentIndex s) in
  if loading s && (List.length (recommendations s) =? 0) then Spinner
  else
    match noMore s, current with
    | true, _ | false, None => AllCaughtUp
    | false, Some c =>
        match error s with
        | Some msg => ErrorMessage msg
        | None => Card c (is_set (swiping s))
        end
    end.

(** The buttons of a screen and the handler each one calls. *)
Inductive Button := LoadMore | TryAgain | Like | Pass.

Definition buttons (v : View) : list Button :=
  match v with
  | Spinner => []
  | AllCaughtUp => [LoadMore]
  | ErrorMessage _ => [TryAgain]
  | Card _ disabled => if disabled then [] else [Like; Pass]
  end.

Definition onClick (props : Props) (b : Button) (s : State) : Async State :=
  match b with
  | LoadMore | TryAgain => fetchRecommendations props
  | Like => handleSwipe props s true
  | Pass => handleSwipe props s false
  end.

End SwipeRecommendations.

(** ** Sequencing: [await p; k] for a handler [p] that sets no timer *)

Fixpoint andThen (St : Type) (p k : Async St) : Async St :=
  match p with
  | Done => k
  | Update f p' => Update f (andThen p' k)
  | ConsoleError msg p' => ConsoleError msg (andThen p' k)
  | Fetch req onFulfilled onRejected =>
      Fetch req (fun r => andThen (onFulfilled r) k) (andThen onRejected k)
  | ReadJson r onFulfilled onRejected =>
      ReadJson r (fun d => andThen (onFulfilled d) k) (andThen onRejected k)
  | SetTimeout ms callback p' => SetTimeout ms callback (andThen p' k)
  end.

(** [value || []] for a property that is an array or is absent: an array,
    even an empty one, is truthy. *)
Definition orEmpty (A : Type) (o : option (list A)) : list A :=
  match o with
  | Some l => l
  | None => []
  end.

(** ** InteractionHistory *)

Module InteractionHistory.

Inductive ActiveList := likedTab | dislikedTab.

Record State := {
  liked : list Candidate;
  disliked : list Candidate;
  loading : bool;
  activeList : ActiveList;
  updating : option nat
}.

(** The [useState] defaults. *)
Definition initial : State :=
  {| liked := []; disliked := []; loading := true; activeList := likedTab;
     updating := None |}.

Definition setLiked (v : list Candidate) (s : State) : State :=
  {| liked := v; disliked := disliked s; loading := loading s;
     activeList := activeList s; updating := updating s |}.

Definition setDisliked (v : list Candidate) (s : State) : State :=
  {| liked := liked s; disliked := v; loading := loading s;
     activeList := activeList s; updating := updating s |}.

Definition setLoading (v : bool) (s : State) : State :=
  {| liked := liked s; disliked := disliked s; loading := v;
     activeList := activeList s; updating := updating s |}.

Definition setActiveList (v : ActiveList) (s : State) : State :=
  {| liked := liked s; disliked := disliked s; loading := loading s;
     activeList := v; updating := updating s |}.

Definition setUpdating (v : option nat) (s : State) : State :=
  {| liked := liked s; disliked := disliked s; loading := loading s;
     activeList := activeList s; updating := v |}.

Definition historyEndpoint (props : Props) : string :=
  (if isInvestor props
   then "http://localhost:8000/api/interactions/investor/" ++ Js.show (userId props)
   else "http://localhost:8000/api/interactions/company/" ++ Js.show (userId props))%string.

Definition fetchHistory (props : Props) : Async State :=
  let finally_ := Update (setLoading false) Done in
  let catch_ := ConsoleError "Failed to fetch interactions:" finally_ in
  Update (setLoading true)
 (Fetch (get (historyEndpoint props))
    (fun response =>
       ReadJson response
         (fun data =>
            match data with
            | Null => catch_
            | Obj d =>
                Update (setLiked (orEmpty (Data.liked d)))
               (Update (setDisliked (orEmpty (Data.disliked d))) finally_)
            end)
         catch_)
    catch_).

Definition updateEndpoint (props : Props) (targetId : nat) : string :=
  (if isInvestor props
   then "http://localhost:8000/api/interactions/investor/" ++ Js.show (userId props)
          ++ "/company/" ++ Js.show targetId
   else "http://localhost:8000/api/interactions/company/" ++ Js.show (userId props)
          ++ "/investor/" ++ Js.show targetId)%string.

Definition updateInteraction (props : Props) (targetId : nat) (newStatus : Z)
  : Async State :=
  let finally_ := Update (setUpdating None) Done in
  Update (setUpdating (Some targetId))
 (Fetch (send PUT (updateEndpoint props targetId) [("new_status", Js.Num newStatus)])
    (fun _ => andThen (fetchHistory props) finally_)
    (ConsoleError "Failed to update interaction:" finally_)).

Definition currentList (s : State) : list Candidate :=
  match activeList s with
  | likedTab => liked s
  | dislikedTab => disliked s
  end.

(** The action buttons of one row, by their [title]. *)
Inductive Button :=
| ChangeToPass
| ChangeToLike
| RemoveFromList.

Definition rowButtons (tab : ActiveList) : list Button :=
  match tab with
  | likedTab => [ChangeToPass; RemoveFromList]
  | dislikedTab => [ChangeToLike; RemoveFromList]
  end.

Definition onClick (props : Props) (item : Candidate) (b : Button) : Async State :=
  let id := if isInvestor props then company_id item else user_id item in
  match b with
  | ChangeToPass => updateInteraction props id 0
  | ChangeToLike => updateInteraction props id 1
  | RemoveFromList => updateInteraction props id (-1)
  end.

End InteractionHistory.

(** ** SearchBar *)

Module SearchBar.

(** A JavaScript string is a sequence of UTF-16 code units. *)
Definition jsstring := list N.

(** The code units [String.prototype.trim] strips: ECMAScript's WhiteSpace
    (TAB, VT, FF, SP, NBSP, ZWNBSP and the space separators) and
    LineTerminator (LF, CR, LS, PS). *)
Definition isWhiteSpace (c : N) : bool :=
  existsb (N.eqb c)
    [9; 10; 11; 12; 13; 32; 160; 5760; 8232; 8233; 8239; 8287; 12288; 65279]%N
  || ((8192 <=? c) && (c <=? 8202))%N.

Fixpoint trimStart (s : jsstring) : jsstring :=
  match s with
  | [] => []
  | c :: s' => if isWhiteSpace c then trimStart s' else s
  end.

Definition trimEnd (s : jsstring) : jsstring := rev (trimStart (rev s)).

Definition trim (s : jsstring) : jsstring := trimEnd (trimStart s).

(** A string is truthy when it is not empty. *)
Definition truthy (s : jsstring) : bool :=
  match s with
  | [] => false
  | _ :: _ => true
  end.

Inductive SearchType := investors | companies.

Record State := {
  query : jsstring;
  results : list Candidate;
  loading : bool;
  showResults : bool
}.

(** The [useState] defaults. *)
Definition initial : State :=
  {| query := []; results := []; loading := false; showResults := false |}.

Definition setQuery (v : jsstring) (s : State) : State :=
  {| query := v; results := results s; loading := loading s;
     showResults := showResults s |}.

Definition setResults (v : list Candidate) (s : State) : State :=
  {| query := query s; results := v; loading := loading s;
     showResults := showResults s |}.

Definition setLoading (v : bool) (s : State) : State :=
  {| query := query s; results := results s; loading := v;
     showResults := showResults s |}.

Definition setShowResults (v : bool) (s : State) : State :=
  {| query := query s; results := results s; loading := loading s;
     showResults := v |}.

Section Component.

(** The built-in [encodeURIComponent]; [None] when it throws a URIError
    (a lone surrogate in its argument). *)
Variable encodeURIComponent : jsstring -> option string.

Variable searchType : SearchType.

Definition isSearchingCompanies : bool :=
  match searchType with companies => true | investors => false end.

Definition searchEndpoint (q : string) : string :=
  (if isSearchingCompanies
   then "http://localhost:8000/api/search/companies?q=" ++ q ++ "&limit=10"
   else "http://localhost:8000/api/search/investors?q=" ++ q ++ "&limit=10")%string.

Definition performSearch (searchQuery : jsstring) : Async State :=
  let finally_ := Update (setLoading false) Done in
  let catch_ := ConsoleError "Search failed:" (Update (setResults []) finally_) in
  Update (setLoading true)
    match encodeURIComponent searchQuery with
    | None => catch_
    | Some q =>
        Fetch (get (searchEndpoint q))
          (fun response =>
             ReadJson response
               (fun data =>
                  match data with
                  | Null => catch_
                  | Obj d =>
                      Update (setResults (orEmpty (Data.results d)))
                     (Update (setShowResults true) finally_)
                  end)
               catch_)
          catch_
    end.

(** The body of the effect that runs when [query] changes: [s] is the
    render whose [query] it closed over. *)
Definition debouncedSearch (s : State) : Async State :=
  SetTimeout 300
    (if truthy (trim (query s))
     then performSearch (query s)
     else Update (setResults []) Done)
    Done.

End Component.

End SearchBar.

(** ** The company profile page: the sibling read and swipe write

    [fetchProfile] throws on a response that is not [response.ok], and
    [handleInteraction], which posts to the same [/swipe] route as
    [SwipeRecommendations.handleSwipe], records the decision only when
    [response.ok]. *)

Module CompanyProfile.

Record State := {
  profile : option Json;
  loading : bool;
  error : option string;
  interacting : bool;
  interactionDone : option bool   (* Some true: "liked", Some false: "disliked" *)
}.

(** The [useState] defaults. *)
Definition initial : State :=
  {| profile := None; loading := true; error := None; interacting := false;
     interactionDone := None |}.

Definition setProfile (v : option Json) (s : State) : State :=
  {| profile := v; loading := loading s; error := error s;
     interacting := interacting s; interactionDone := interactionDone s |}.

Definition setLoading (v : bool) (s : State) : State :=
  {| profile := profile s; loading := v; error := error s;
     interacting := interacting s; interactionDone := interactionDone s |}.

Definition setError (v : option string) (s : State) : State :=
  {| profile := profile s; loading := loading s; error := v;
     interacting := interacting s; interactionDone := interactionDone s |}.

Definition setInteracting (v : bool) (s : State) : State :=
  {| profile := profile s; loading := loading s; error := error s;
     interacting := v; interactionDone := interactionDone s |}.

Definition setInteractionDone (v : option bool) (s : State) : State :=
  {| profile := profile s; loading := loading s; error := error s;
     interacting := interacting s; interactionDone := v |}.

(** [id] is the route parameter.  The message of a rejected [fetch] or
    [json()] is the engine's; it is taken as a parameter. *)
Definition fetchProfile (engineMessage : string) (id : nat) : Async State :=
  let finally_ := Update (setLoading false) Done in
  let catch_ (message : string) := Update (setError (Some message)) finally_ in
  Fetch (get ("http://localhost:8000/api/company/" ++ Js.show id)%string)
    (fun response =>
       if negb (ok response) then catch_ "Company not found"
       else
         ReadJson response
           (fun data => Update (setProfile (Some data)) finally_)
           (catch_ engineMessage))
    (catch_ engineMessage).

(** [viewerId] and [viewerType] come from the query string. *)
Definition handleInteraction (viewerId : option nat) (viewerIsInvestor : bool)
    (id : nat) (s : State) (liked : bool) : Async State :=
  match viewerId with
  | None => Done
  | Some viewer =>
      if negb viewerIsInvestor || interacting s then Done
      else
        let finally_ := Update (setInteracting false) Done in
        Update (setInteracting true)
       (Fetch (send POST
                 ("http://localhost:8000/api/swipe/investor/" ++ Js.show viewer
                    ++ "/company/" ++ Js.show id)%string
                 [("like", Js.Bool liked)])
          (fun response =>
             if ok response
             then Update (setInteractionDone (Some liked)) finally_
             else finally_)
          (ConsoleError "Interaction failed:" finally_))
  end.

End CompanyProfile.

(** ** ExpandableTag

    The tag [SwipeRecommendations] and [InteractionHistory] render for the
    comma-separated stages and industries of an investor. *)

Module ExpandableTag.

Import SearchBar.

(** The code units of an ASCII literal. *)
Definition lit (s : string) : jsstring :=
  map Ascii.N_of_ascii (list_ascii_of_string s).

(** The own properties of the object [shortenings]. *)
Definition shortenings : list (jsstring * jsstring) :=
  [ (lit "Industry Agnostic", lit "Agnostic");
    (lit "Idea (Pre-Seed)", lit "Pre-Seed");
    (lit "Prototype (Seed)", lit "Seed");
    (lit "Early revenue (Series A)", lit "Series A");
    (lit "Scaling (Series B)", lit "Series B");
    (lit "Growth (Series C/D)", lit "Series C/D");
    (lit "Pre-IPO (Series E+)", lit "Series E+") ].

Definition jsstring_eqb (a b : jsstring) : bool :=
  if list_eq_dec N.eq_dec a b then true else false.

Fixpoint own (name : jsstring) (o : list (jsstring * jsstring)) : option jsstring :=
  match o with
  | [] => None
  | (key, value) :: o' => if jsstring_eqb name key then Some value else own name o'
  end.

(** What [shortenName] can return: a string, or what [shortenings[name]]
    finds on [Object.prototype] when [name] is, say, "constructor": a
    function or an object, which is truthy. *)
Inductive Value :=
| Text (s : jsstring)
| Inherited.

Definition truthyValue (v : Value) : bool :=
  match v with
  | Text s => truthy s
  | Inherited => true
  end.

(** [s.split(sep)] for a separator of one code unit. *)
Fixpoint split (sep : N) (s : jsstring) : list jsstring :=
  match s with
  | [] => [[]]
  | c :: s' =>
      if N.eqb c sep then [] :: split sep s'
      else
        match split sep s' with
        | seg :: rest => (c :: seg) :: rest
        | [] => [[c]]
        end
  end.

Definition comma : N := 44.

Section Engine.

(** Whether a name is a property of [Object.prototype] in the engine. *)
Variable inherited : jsstring -> bool.

(** [shortenings[name] || name]: the seven values are non-empty strings. *)
Definition shortenName (name : jsstring) : Value :=
  match own name shortenings with
  | Some short => Text short
  | None => if inherited name then Inherited else Text name
  end.

(** [values.split(',').map(v => shortenName(v.trim())).filter(v => v)] *)
Definition items (values : jsstring) : list Value :=
  filter truthyValue (map (fun v => shortenName (trim v)) (split comma values)).

(** What the component returns: nothing, or the button with its count and,
    when expanded, the list of items. *)
Inductive View :=
| Nothing
| Tag (count : nat) (expanded : bool) (dropdown : list Value).

(** [values] is [None] when the prop is [undefined] or [null]. *)
Definition render (values : option jsstring) (expanded : bool) : View :=
  match values with
  | None => Nothing
  | Some v =>
      if negb (truthy v) then Nothing
      else if List.length (items v) =? 0 then Nothing
      else Tag (List.length (items v)) expanded (if expanded then items v else [])
  end.

End Engine.

(** [onClick={() => setExpanded(!expanded)}], with the [expanded] of the
    render the button belongs to. *)
Definition onClick (expanded : bool) : Async bool :=
  Update (fun _ => negb expanded) Done.

End ExpandableTag.

(** ** SearchBar: the input, the effect cycle and the dropdown *)

Module SearchBarEvents.

Import SearchBar.

(** [Object.is] on two strings. *)
Definition sameValue (a b : jsstring) : bool :=
  if list_eq_dec N.eq_dec a b then true else false.

(** [clearTimeout(timer)] in the cleanup of the debounced effect: the
    component sets no other timer, and the effect of the previous render
    is the only one not yet cleaned up. *)
Definition clearTimeout (St : Type) (pending : list (Task St)) : list (Task St) :=
  filter (fun t => match t with Timer _ _ => false | _ => true end) pending.

(** [showResults && (query || loading)] and the three bodies of the
    dropdown. *)
Inductive Dropdown :=
| Hidden
| Searching
| NoResults
| Rows (items : list Candidate).

Definition dropdown (s : State) : Dropdown :=
  if showResults s && (truthy (query s) || loading s)
  then
    if loading s then Searching
    else if List.length (results s) =? 0 then NoResults
    else Rows (results s)
  else Hidden.

Section Component.

Variable encodeURIComponent : jsstring -> option string.
Variable searchType : SearchType.

(** What React runs after a render in which [query] has changed: the
    cleanup of the previous effect, then the effect of this render. *)
Definition queryChanged (sys : Sys State) : Sys State :=
  exec (debouncedSearch encodeURIComponent searchType (live sys))
    {| live := live sys; tasks := clearTimeout (tasks sys); trace := trace sys |}.

(** The first render: the effect runs on the initial state. *)
Definition mount : Sys State := queryChanged (idle initial).

(** [onChange={(e) => setQuery(e.target.value)}]: a value equal to the
    current query re-runs no effect. *)
Definition onChange (value : jsstring) (sys : Sys State) : Sys State :=
  if sameValue value (query (live sys)) then sys
  else
    queryChanged
      {| live := setQuery value (live sys); tasks := tasks sys; trace := trace sys |}.

(** The clear button: [setQuery(""); setResults([])]. *)
Definition onClear (sys : Sys State) : Sys State :=
  let cleared :=
    {| live := setResults [] (setQuery [] (live sys)); tasks := tasks sys;
       trace := trace sys |} in
  if sameValue [] (query (live sys)) then cleared else queryChanged cleared.

End Component.

(** [onFocus={() => query && setShowResults(true)}] *)
Definition onFocus (s : State) : Async State :=
  if truthy (query s) then Update (setShowResults true) Done else Done.

(** [handleClickOutside], for a click outside the wrapper. *)
Definition handleClickOutside : Async State :=
  Update (setShowResults false) Done.

End SearchBarEvents.

(** * The vocabulary of the properties *)

(** ** Servers and sample data *)

(** An HTTP 500 whose body is a JSON error object, such as
    [{ detail: "Internal Server Error" }]. *)
Definition serverError : Response :=
  {| status := 500; payload := Some (Obj Data.empty) |}.

Definition accepted : Response := {| status := 200; payload := Some (Obj Data.empty) |}.

(** A server that acknowledges every write. *)
Definition acknowledging (net : Request -> Settled) : Prop :=
  forall req, exists r, net req = Fulfilled r /\ ok r = true.

(** The [catch] block of a read runs when [fetch] rejects, when the body
    is not JSON and when it is [null]. *)
Definition throws (o : Settled) : Prop :=
  match o with
  | Rejected => True
  | Fulfilled r => payload r = None \/ payload r = Some Null
  end.

Definition candidateA : Candidate := {| company_id := 1; user_id := 1; name := "A" |}.
Definition candidateB : Candidate := {| company_id := 2; user_id := 2; name := "B" |}.
Definition candidateC : Candidate := {| company_id := 3; user_id := 3; name := "C" |}.

Definition investor7 : Props := {| type := investor; userId := 7 |}.

Definition serverLists (l l' : list Candidate) : Response :=
  {| status := 200;
     payload := Some (Obj {| Data.recommendations := None; Data.liked := Some l;
                             Data.disliked := Some l'; Data.results := None |}) |}.

(** The server after the investor has changed A from liked to passed. *)
Definition ledgerAfterPass (req : Request) : Settled :=
  match method req with
  | PUT => Fulfilled accepted
  | _ => Fulfilled (serverLists [] [candidateB; candidateA])
  end.

(** ** The swipe session *)

Section SwipeVocabulary.

Import SwipeRecommendations.

Definition recommendationsRead (props : Props) : Request :=
  get (recommendationsEndpoint props).

(** The state once [fetchRecommendations] has run to its [finally]. *)
Definition fetched (props : Props) (net : Request -> Settled) (s : State) : State :=
  fst (run net (fetchRecommendations props) s).

(** The session right after a non-empty batch has been fetched. *)
Definition ready (batch : list Candidate) : State :=
  {| recommendations := batch; currentIndex := 0; loading := false;
     swiping := None; noMore := false; error := None |}.

(** One decision carried through: the click, the settled write and, when
    one was set, the 300 ms timer. *)
Definition decide (props : Props) (net : Request -> Settled) (s : State)
    (liked : bool) : State :=
  fst (run net (handleSwipe props s liked) s).

Definition decisions (props : Props) (net : Request -> Settled) (ds : list bool)
    (s : State) : State :=
  fold_left (decide props net) ds s.

(** The click as an event of the loop. *)
Definition click (props : Props) (liked : bool) : Event State :=
  Invoke (fun s => handleSwipe props s liked).

(** The guard of [handleSwipe]. *)
Definition guarded (s : State) : Prop :=
  swiping s <> None \/ List.length (recommendations s) <= currentIndex s.

(** A burst of clicks around one decision: further clicks while the
    write is pending, and more while the card animates out. *)
Definition burst (props : Props) (liked : bool) (bs bs' : list bool) (r : Response)
  : list (Event State) :=
  click props liked :: map (click props) bs
    ++ Settle 0 (Fulfilled r) :: map (click props) bs'
    ++ [Resume 0].

(** The events of a session in which only the Like and Pass buttons are
    used. *)
Inductive SwipeEvent (props : Props) : Event State -> Prop :=
| swipe_click liked : SwipeEvent props (click props liked)
| swipe_settle i o : SwipeEvent props (Settle i o)
| swipe_resume i : SwipeEvent props (Resume i).

Definition keepsSwiping (f : State -> State) : Prop :=
  forall x, swiping (f x) = swiping x.

(** The two shapes a suspended [handleSwipe] has: waiting for the write,
    and waiting for the 300 ms timer. *)
Inductive SwipeTask : Task State -> Prop :=
| write_pending req f :
    keepsSwiping f ->
    SwipeTask
      (AwaitingFetch req
         (fun _ => SetTimeout 300 (Update (setSwiping None) (Update f Done)) Done)
         (ConsoleError "Swipe failed:" (Update (setSwiping None) Done)))
| timer_pending f :
    keepsSwiping f ->
    SwipeTask (Timer 300 (Update (setSwiping None) (Update f Done))).

(** Nothing is suspended and [swiping] is clear, or exactly one
    [handleSwipe] is suspended and [swiping] is set. *)
Definition oneInFlight (sys : Sys State) : Prop :=
  (tasks sys = [] /\ swiping (live sys) = None) \/
  (exists task, tasks sys = [task] /\ SwipeTask task /\ swiping (live sys) <> None).

End SwipeVocabulary.

(** ** The interaction ledger *)

Section LedgerVocabulary.

Import InteractionHistory.

(** The statuses of the wire contract and their sentinels, as
    PUT /interactions documents them: 1 = like, 0 = dislike,
    -1 = remove entirely. *)
Inductive NewStatus := like | dislike | remove.

Definition sentinel (n : NewStatus) : Z :=
  match n with
  | like => 1
  | dislike => 0
  | remove => -1
  end%Z.

(** What each button of a row asks for. *)
Definition meaning (b : Button) : NewStatus :=
  match b with
  | ChangeToLike => like
  | ChangeToPass => dislike
  | RemoveFromList => remove
  end.

Definition targetOf (props : Props) (item : Candidate) : nat :=
  if isInvestor props then company_id item else user_id item.

Definition statusWrite (props : Props) (targetId : nat) (newStatus : Z) : Request :=
  send PUT (updateEndpoint props targetId) [("new_status", Js.Num newStatus)].

Definition historyRead (props : Props) : Request := get (historyEndpoint props).

(** A history showing A liked and B passed. *)
Definition shown : State :=
  {| liked := [candidateA]; disliked := [candidateB]; loading := false;
     activeList := likedTab; updating := None |}.

End LedgerVocabulary.

(** ** The search bar *)

Section SearchVocabulary.

Import SearchBar.

(** Empty, or white space only. *)
Definition blank (q : jsstring) : Prop :=
  Forall (fun c => isWhiteSpace c = true) q.

(** The timer of the debounced effect firing on the render [s]. *)
Definition fired (encodeURIComponent : jsstring -> option string)
    (searchType : SearchType) (net : Request -> Settled) (s : State)
  : State * list Effect :=
  run net (debouncedSearch encodeURIComponent searchType s) s.

End SearchVocabulary.

(** ** Sessions of clicks *)

Section SessionVocabulary.

Import SwipeRecommendations.

Definition sameButton (a b : Button) : bool :=
  match a, b with
  | LoadMore, LoadMore | TryAgain, TryAgain | Like, Like | Pass, Pass => true
  | _, _ => false
  end.

(** Whether the screen of [s] has the button, enabled. *)
Definition offers (s : State) (b : Button) : bool :=
  existsb (sameButton b) (buttons (render s)).

(** A click on a button, carried through with the server [net]; on a
    screen that does not offer the button nothing happens. *)
Definition pressed (props : Props) (net : Request -> Settled) (b : Button)
    (acc : State * list Effect) : State * list Effect :=
  let (s, t) := acc in
  if offers s b
  then let (s', t') := run net (onClick props b s) s in (s', t ++ t')
  else (s, t).

(** The button of a decision, and one step of a session. *)
Definition swipeButton (d : bool * Settled) : Button :=
  if fst d then Like else Pass.

Definition sessionStep (props : Props) (acc : State * list Effect)
    (d : bool * Settled) : State * list Effect :=
  pressed props (fun _ => snd d) (swipeButton d) acc.

(** A run of Like and Pass clicks, each paired with the way its write
    settles. *)
Definition session (props : Props) (ds : list (bool * Settled)) (s : State)
  : State * list Effect :=
  fold_left
    (fun (acc : State * list Effect) (d : bool * Settled) =>
       pressed props (fun _ => snd d) (if fst d then Like else Pass) acc)
    ds (s, []).

Definition fulfilled (o : Settled) : bool :=
  match o with
  | Fulfilled _ => true
  | Rejected => false
  end.

Definition fulfilledCount (ds : list (bool * Settled)) : nat :=
  List.length (filter (fun d => fulfilled (snd d)) ds).

(** The write [handleSwipe] sends for a candidate. *)
Definition swipeWrite (props : Props) (c : Candidate) (liked : bool) : Request :=
  send POST
    (swipeEndpoint props (if isInvestor props then company_id c else user_id c))
    [("like", Js.Bool liked)].

(** The session is at rest on a batch: no write pending, no fetch running,
    no error, the cursor on a candidate. *)
Definition atRest (batch : list Candidate) (s : State) : Prop :=
  recommendations s = batch /\
  swiping s = None /\
  loading s = false /\
  error s = None /\
  currentIndex s < List.length batch.

End SessionVocabulary.

(** ** Typing into the search bar *)

Section TypingVocabulary.

Import SearchBar SearchBarEvents.

Variable encodeURIComponent : jsstring -> option string.
Variable searchType : SearchType.

(** The component mounted, then the values typed one after the other with
    no timer firing in between. *)
Definition typed (values : list jsstring) : Sys State :=
  fold_left (fun sys v => onChange encodeURIComponent searchType v sys) values
    (mount encodeURIComponent searchType).

(** The callback of the timer the effect sets for a query. *)
Definition debounceCallback (q : jsstring) : Async State :=
  if truthy (trim q)
  then performSearch encodeURIComponent searchType q
  else Update (setResults []) Done.

(** The requests a search for [q] sends. *)
Definition searchFor (q : jsstring) : list Request :=
  if truthy (trim q)
  then
    match encodeURIComponent q with
    | Some e => [get (searchEndpoint searchType e)]
    | None => []
    end
  else [].

End TypingVocabulary.

(** ** Tags *)

Section TagVocabulary.

Import SearchBar.

(** The first code unit, if there is one, is not white space. *)
Definition headKept (s : jsstring) : Prop :=
  match s with
  | [] => True
  | c :: _ => isWhiteSpace c = false
  end.

(** Not empty, and no white space at either end. *)
Definition trimmed (s : jsstring) : Prop :=
  s <> [] /\ headKept s /\ headKept (rev s).

(** Empty or white space only, as a test. *)
Definition blankb (s : jsstring) : bool := forallb isWhiteSpace s.

End TagVocabulary.

(** * Properties *)

(** ** The recommendation fetch *)

Section RecommendationFetch.

Import SwipeRecommendations.

Variable props : Props.
Variable net : Request -> Settled.

(** A non-empty list replaces the batch and rewinds the cursor. *)
Lemma fetch_fills_batch (s : State) r d c l :
  net (recommendationsRead props) = Fulfilled r ->
  payload r = Some (Obj d) ->
  Data.recommendations d = Some (c :: l) ->
  fetched props net s =
    {| recommendations := c :: l; currentIndex := 0; loading := false;
       swiping := swiping s; noMore := false; error := None |}.
Proof.
  intros Hnet Hbody Hrecs. unfold fetched, fetchRecommendations. simpl.
  fold (recommendationsRead props). rewrite Hnet. simpl. rewrite Hbody, Hrecs. reflexivity.
Qed.

(** A list that is empty or absent only raises [noMore]. *)
Lemma fetch_empty_sets_noMore (s : State) r d :
  net (recommendationsRead props) = Fulfilled r ->
  payload r = Some (Obj d) ->
  Data.recommendations d = None \/ Data.recommendations d = Some [] ->
  fetched props net s = setLoading false (setNoMore true (setError None (setLoading true s))).
Proof.
  intros Hnet Hbody Hrecs. unfold fetched, fetchRecommendations. simpl.
  fold (recommendationsRead props). rewrite Hnet. simpl. rewrite Hbody.
  destruct Hrecs as [-> | ->]; reflexivity.
Qed.

Lemma fetch_throw_sets_error (s : State) :
  throws (net (recommendationsRead props)) ->
  fetched props net s =
    setLoading false
      (setError (Some "Failed to load recommendations") (setLoading true s)).
Proof.
  unfold throws, fetched, fetchRecommendations. simpl. fold (recommendationsRead props).
  destruct (net (recommendationsRead props)) as [r|]; simpl.
  - intros [-> | ->]; reflexivity.
  - reflexivity.
Qed.

End RecommendationFetch.

Section FetchOutcomes.

Import SwipeRecommendations.

(** C1, evaluated on the code: a recommendation fetch answered with
    HTTP 500 and a JSON error body does not reach the error screen.
    [fetch] fulfils, the body has no [recommendations], and the session
    ends with [noMore] set, no [error], and the "All caught up!" screen
    whose only button is "Load More". *)
Theorem http_500_is_shown_as_all_caught_up (props : Props) :
  let s := fetched props (fun _ => Fulfilled serverError) initial in
  ok serverError = false /\
  error s = None /\
  noMore s = true /\
  render s = AllCaughtUp /\
  buttons (render s) = [LoadMore].
Proof. repeat split; reflexivity. Qed.

(** The same holds from any earlier state, whatever was on screen. *)
Lemma http_500_sets_noMore (props : Props) (s : State) :
  let s' := fetched props (fun _ => Fulfilled serverError) s in
  error s' = None /\ noMore s' = true /\ render s' = AllCaughtUp.
Proof. repeat split; reflexivity. Qed.

(** A transport failure on the first load sets [error], but the render
    cascade tests [noMore || !current] before [error]: with no batch on
    screen the message and "Try Again" are never returned. *)
Lemma transport_failure_on_mount_is_masked (props : Props) :
  let s := fetched props (fun _ => Rejected) initial in
  error s = Some "Failed to load recommendations" /\
  noMore s = false /\
  render s = AllCaughtUp.
Proof. repeat split; reflexivity. Qed.

(** The sibling read on the profile page does test [response.ok]: the
    same HTTP 500 is recorded as an error there. *)
Lemma profile_page_read_checks_response_ok (id : nat) :
  let s := fst (run (fun _ => Fulfilled serverError)
                  (CompanyProfile.fetchProfile "" id) CompanyProfile.initial) in
  CompanyProfile.error s = Some "Company not found" /\
  CompanyProfile.profile s = None.
Proof. split; reflexivity. Qed.

(** The error screen is returned exactly when a card would otherwise be
    on screen. *)
Lemma render_error_iff (s : State) (msg : string) :
  render s = ErrorMessage msg <->
  error s = Some msg /\ noMore s = false /\
  currentIndex s < List.length (recommendations s).
Proof.
  unfold render.
  destruct (nth_error (recommendations s) (currentIndex s)) as [c|] eqn:Hcur.
  - assert (Hlt : currentIndex s < List.length (recommendations s))
      by (apply nth_error_Some; congruence).
    assert (Hlen : (List.length (recommendations s) =? 0) = false)
      by (apply Nat.eqb_neq; lia).
    rewrite Hlen, andb_false_r.
    destruct (noMore s), (error s) as [e|]; split;
      try discriminate; try (intros (? & ? & ?); discriminate).
    + intros [= ->]. auto.
    + intros ([= ->] & _ & _). reflexivity.
  - apply nth_error_None in Hcur.
    destruct (loading s && (List.length (recommendations s) =? 0));
      destruct (noMore s); split; try discriminate; intros (_ & _ & ?); lia.
Qed.

(** A failed fetch (rejected, or a body that cannot be read) while a card
    is on screen does reach the error screen and leaves [noMore] alone. *)
Lemma thrown_fetch_over_a_card (props : Props) net (s : State) :
  throws (net (recommendationsRead props)) ->
  noMore s = false ->
  currentIndex s < List.length (recommendations s) ->
  let s' := fetched props net s in
  render s' = ErrorMessage "Failed to load recommendations" /\
  buttons (render s') = [TryAgain].
Proof.
  intros Hthrow Hmore Hlt s'.
  assert (Hs' : render s' = ErrorMessage "Failed to load recommendations").
  { apply render_error_iff. subst s'.
    rewrite (fetch_throw_sets_error props net s Hthrow). simpl. auto. }
  rewrite Hs'. split; reflexivity.
Qed.

(** C5: a recommendation fetch that completes with a 2xx status and a
    body whose [recommendations] is empty or missing ends on the
    "All caught up!" screen, with [noMore] set and no error recorded. *)
Theorem empty_batch_is_exhaustion (props : Props) net (s : State) r d :
  net (recommendationsRead props) = Fulfilled r ->
  ok r = true ->
  payload r = Some (Obj d) ->
  Data.recommendations d = None \/ Data.recommendations d = Some [] ->
  let s' := fetched props net s in
  noMore s' = true /\
  error s' = None /\
  render s' = AllCaughtUp /\
  (forall msg, render s' <> ErrorMessage msg).
Proof.
  intros Hnet _ Hbody Hrecs s'. subst s'.
  rewrite (fetch_empty_sets_noMore props net s Hnet Hbody Hrecs).
  assert (Hview : render (setLoading false (setNoMore true
                    (setError None (setLoading true s)))) = AllCaughtUp)
    by reflexivity.
  rewrite Hview. repeat split; discriminate.
Qed.

(** C5 at an investor whose fetch returns an empty list. *)
Lemma empty_batch_is_exhaustion_witness :
  let props := {| type := investor; userId := 7 |} in
  let r := {| status := 200;
              payload := Some (Obj {| Data.recommendations := Some [];
                                      Data.liked := None; Data.disliked := None;
                                      Data.results := None |}) |} in
  let s' := fetched props (fun _ => Fulfilled r) initial in
  noMore s' = true /\ error s' = None /\ render s' = AllCaughtUp /\
  (forall msg, render s' <> ErrorMessage msg).
Proof.
  intros props r.
  apply (@empty_batch_is_exhaustion props (fun _ => Fulfilled r) initial r
           {| Data.recommendations := Some []; Data.liked := None;
              Data.disliked := None; Data.results := None |});
    [reflexivity | reflexivity | reflexivity | right; reflexivity].
Defined.

End FetchOutcomes.

(** ** The swipe session *)

Section SwipeSession.

Import SwipeRecommendations.

Variable props : Props.

Lemma guarded_handleSwipe (s : State) (liked : bool) :
  guarded s -> handleSwipe props s liked = Done.
Proof.
  unfold guarded, handleSwipe. intros [Hswiping | Hbound].
  - destruct (swiping s); [reflexivity | congruence].
  - apply Nat.leb_le in Hbound. rewrite Hbound, orb_true_r. reflexivity.
Qed.

Lemma unguarded_handleSwipe (s : State) (liked : bool) :
  swiping s = None ->
  currentIndex s < List.length (recommendations s) ->
  exists current,
    nth_error (recommendations s) (currentIndex s) = Some current /\
    handleSwipe props s liked =
      Update (setSwiping (Some (if liked then Right else Left)))
        (Fetch (send POST
                  (swipeEndpoint props
                     (if isInvestor props then company_id current
                      else user_id current))
                  [("like", Js.Bool liked)])
           (fun _ =>
              SetTimeout 300
                (Update (setSwiping None)
                   (if List.length (recommendations s) <=? currentIndex s + 1
                    then Update (setNoMore true) Done
                    else Update (setCurrentIndex (fun prev => prev + 1)) Done))
                Done)
           (ConsoleError "Swipe failed:" (Update (setSwiping None) Done))).
Proof.
  intros Hswiping Hlt.
  destruct (nth_error (recommendations s) (currentIndex s)) as [c|] eqn:Hcur.
  - exists c. split; [reflexivity|]. unfold handleSwipe.
    rewrite Hswiping, Hcur.
    apply Nat.leb_gt in Hlt. rewrite Hlt. reflexivity.
  - apply nth_error_None in Hcur. lia.
Qed.

(** What one decision does once the write is fulfilled, whatever the
    status of the response. *)
Lemma decide_fulfilled net (s : State) (liked : bool) :
  (forall req, exists r, net req = Fulfilled r) ->
  swiping s = None ->
  currentIndex s < List.length (recommendations s) ->
  decide props net s liked =
    if List.length (recommendations s) <=? currentIndex s + 1
    then setNoMore true s
    else setCurrentIndex (fun prev => prev + 1) s.
Proof.
  intros Hnet Hswiping Hlt.
  destruct (unguarded_handleSwipe s liked Hswiping Hlt) as (c & _ & Heq).
  unfold decide. rewrite Heq. cbn [run].
  match goal with |- context [net ?q] => destruct (Hnet q) as (r & ->) end.
  destruct (List.length (recommendations s) <=? currentIndex s + 1);
    destruct s; cbn in *; subst; reflexivity.
Qed.

(** When the write is rejected the session is back where it was. *)
Lemma decide_rejected net (s : State) (liked : bool) :
  (forall req, net req = Rejected) ->
  swiping s = None ->
  decide props net s liked = s.
Proof.
  intros Hnet Hswiping. unfold decide.
  destruct (Nat.lt_ge_cases (currentIndex s) (List.length (recommendations s)))
    as [Hlt | Hge].
  - destruct (unguarded_handleSwipe s liked Hswiping Hlt) as (c & _ & Heq).
    rewrite Heq. cbn [run]. rewrite Hnet.
    destruct s; cbn in *; subst; reflexivity.
  - rewrite guarded_handleSwipe by (right; exact Hge). reflexivity.
Qed.

End SwipeSession.

Section SwipeClaims.

Import SwipeRecommendations.

Lemma acknowledging_fulfils net :
  acknowledging net -> forall req, exists r, net req = Fulfilled r.
Proof. intros Hack req. destruct (Hack req) as (r & Hr & _). eauto. Qed.

(** C2, evaluated on the code: the investor likes A in the batch
    [A; B; C] and the POST /swipe is answered with HTTP 500.  [fetch]
    fulfils, the timer is set, and the cursor moves from 0 to 1: B is on
    screen although the write was not acknowledged. *)
Theorem cursor_advances_on_http_500 :
  let s := ready [candidateA; candidateB; candidateC] in
  let net := fun _ : Request => Fulfilled serverError in
  let s' := decide investor7 net s true in
  ok serverError = false /\
  currentIndex s = 0 /\
  currentIndex s' = 1 /\
  render s' = Card candidateB false.
Proof. repeat split; reflexivity. Qed.

(** The status of the response is never read: any fulfilled write on a
    candidate that is not the last one advances the cursor. *)
Lemma cursor_advances_on_any_status (props : Props) net (s : State) liked :
  (forall req, exists r, net req = Fulfilled r) ->
  swiping s = None ->
  currentIndex s + 1 < List.length (recommendations s) ->
  currentIndex (decide props net s liked) = currentIndex s + 1.
Proof.
  intros Hnet Hswiping Hlt.
  rewrite decide_fulfilled by (auto; lia).
  assert (Hlast : (List.length (recommendations s) <=? currentIndex s + 1) = false)
    by (apply Nat.leb_gt; lia).
  rewrite Hlast. reflexivity.
Qed.

(** The part of C2 the code keeps: while the write is pending, and after
    it is fulfilled until the timer fires, the cursor has not moved; and
    a rejected write leaves the whole session as it was. *)
Lemma cursor_waits_for_the_write (props : Props) (s : State) liked r :
  let pending := step (idle s) (click props liked) in
  let settled := step pending (Settle 0 (Fulfilled r)) in
  currentIndex (live pending) = currentIndex s /\
  currentIndex (live settled) = currentIndex s.
Proof.
  unfold click, step, handleSwipe. cbn [live idle].
  destruct (is_set (swiping s) || (List.length (recommendations s) <=? currentIndex s));
    [split; reflexivity|].
  destruct (nth_error (recommendations s) (currentIndex s));
    split; reflexivity.
Qed.

Lemma cursor_stays_on_transport_failure (props : Props) (s : State) liked :
  swiping s = None ->
  decide props (fun _ => Rejected) s liked = s.
Proof. intros Hswiping. apply decide_rejected; auto. Qed.

(** The sibling write on the profile page does read [response.ok]: the
    same HTTP 500 records no decision there. *)
Lemma profile_page_checks_response_ok (viewer id : nat) liked :
  let s := CompanyProfile.setLoading false CompanyProfile.initial in
  fst (run (fun _ => Fulfilled serverError)
         (CompanyProfile.handleInteraction (Some viewer) true id s liked) s) = s.
Proof. reflexivity. Qed.

(** The two semantics agree on one decision: the click, the settled write
    and the timer, taken as events of the loop, end in the state of
    [decide]. *)
Lemma decide_is_the_loop (props : Props) (s : State) liked o :
  live (steps (idle s) [click props liked; Settle 0 o; Resume 0]) =
    decide props (fun _ => o) s liked.
Proof.
  unfold decide, steps, click. cbn [fold_left step live idle].
  unfold handleSwipe.
  destruct (is_set (swiping s) || (List.length (recommendations s) <=? currentIndex s));
    [reflexivity|].
  destruct (nth_error (recommendations s) (currentIndex s)); [|reflexivity].
  destruct o as [r|]; cbn;
    destruct (List.length (recommendations s) <=? currentIndex s + 1); reflexivity.
Qed.

(** *** Counting acknowledged decisions *)

Lemma decisions_from (props : Props) net (batch : list Candidate) :
  (forall req, exists r, net req = Fulfilled r) ->
  forall ds s,
    recommendations s = batch ->
    swiping s = None ->
    noMore s = false ->
    currentIndex s < List.length batch ->
    currentIndex s + List.length ds <= List.length batch ->
    let s' := decisions props net ds s in
    recommendations s' = batch /\
    swiping s' = None /\
    loading s' = loading s /\
    error s' = error s /\
    currentIndex s' = Nat.min (currentIndex s + List.length ds) (List.length batch - 1) /\
    noMore s' = (currentIndex s + List.length ds =? List.length batch).
Proof.
  intros Hnet. induction ds as [|d ds IH]; intros s Hrecs Hswiping Hmore Hlt Hroom.
  - cbn. repeat split; auto; [lia|].
    rewrite Hmore. symmetry. apply Nat.eqb_neq. lia.
  - change (decisions props net (d :: ds) s)
      with (decisions props net ds (decide props net s d)).
    cbn [List.length] in *.
    assert (Hstep := decide_fulfilled props net s d Hnet Hswiping).
    rewrite Hrecs in Hstep. specialize (Hstep Hlt).
    destruct (List.length batch <=? currentIndex s + 1) eqn:Hlast.
    + apply Nat.leb_le in Hlast.
      assert (ds = []) by (destruct ds; [reflexivity | cbn in Hroom; lia]).
      subst ds. rewrite Hstep. cbn.
      repeat split; auto; [lia|].
      symmetry. apply Nat.eqb_eq. lia.
    + apply Nat.leb_gt in Hlast. rewrite Hstep.
      destruct (IH (setCurrentIndex (fun prev => prev + 1) s))
        as (H1 & H2 & H3 & H4 & H5 & H6); cbn; auto; try lia.
      cbn in H5, H6. repeat split; auto.
      * rewrite H5. f_equal. lia.
      * rewrite H6. f_equal. lia.
Qed.

(** C3 as stated fails on the last candidate: three acknowledged
    decisions on the batch [A; B; C] leave the cursor at 2, which is
    neither the number of acknowledged decisions nor the batch size,
    while the "All caught up!" screen is shown. *)
Lemma cursor_after_last_decision_counterexample :
  let batch := [candidateA; candidateB; candidateC] in
  let ds := [true; false; true] in
  let s := decisions investor7 (fun _ => Fulfilled accepted) ds (ready batch) in
  List.length ds <= List.length batch /\
  currentIndex s = 2 /\
  currentIndex s <> List.length ds /\
  currentIndex s <> List.length batch /\
  render s = AllCaughtUp.
Proof. cbn. repeat split; try reflexivity; try lia; discriminate. Qed.

(** C3, amended: in a session on a non-empty batch of size M, after the
    first k of N acknowledged decisions (k <= N <= M) the cursor is
    min k (M - 1): it equals the number of acknowledged decisions while
    that is below M and stays below M throughout.  The M-th
    acknowledgment leaves the cursor on the last candidate and raises
    [noMore]; the "All caught up!" screen is shown exactly then. *)
Theorem cursor_counts_acknowledged_decisions
    (props : Props) net (batch : list Candidate) (ds : list bool) (k : nat) :
  acknowledging net ->
  batch <> [] ->
  List.length ds <= List.length batch ->
  k <= List.length ds ->
  let s := decisions props net (firstn k ds) (ready batch) in
  currentIndex s = Nat.min k (List.length batch - 1) /\
  currentIndex s < List.length batch /\
  (k < List.length batch -> currentIndex s = k) /\
  noMore s = (k =? List.length batch) /\
  (render s = AllCaughtUp <-> k = List.length batch).
Proof.
  intros Hack Hbatch Hlen Hk s.
  assert (Hpos : 0 < List.length batch)
    by (destruct batch; [congruence | cbn; lia]).
  assert (Hfirst : List.length (firstn k ds) = k)
    by (rewrite length_firstn; lia).
  destruct (@decisions_from props net batch (acknowledging_fulfils Hack)
              (firstn k ds) (ready batch))
    as (Hrecs & Hswiping & Hloading & Herror & Hindex & Hmore);
    try reflexivity; cbn [ready currentIndex]; try lia.
  fold s in Hrecs, Hswiping, Hloading, Herror, Hindex, Hmore.
  rewrite Hfirst in Hindex, Hmore. cbn in Hindex, Hmore, Hloading, Herror.
  assert (Hlt : currentIndex s < List.length batch) by lia.
  repeat split; auto; try lia.
  - unfold render. rewrite Hloading, Hmore, Herror. cbn [andb].
    destruct (k =? List.length batch) eqn:Hfull; [intros _; apply Nat.eqb_eq; exact Hfull|].
    destruct (nth_error (recommendations s) (currentIndex s)) eqn:Hcur;
      [discriminate|].
    apply nth_error_None in Hcur. rewrite Hrecs in Hcur. lia.
  - intros ->. unfold render. rewrite Hloading, Hmore, Nat.eqb_refl. reflexivity.
Qed.

(** C3, amended, on the batch [A; B; C] after all three decisions. *)
Lemma cursor_counts_acknowledged_decisions_witness :
  let batch := [candidateA; candidateB; candidateC] in
  let s := decisions investor7 (fun _ => Fulfilled accepted)
             (firstn 3 [true; false; true]) (ready batch) in
  currentIndex s = Nat.min 3 (List.length batch - 1) /\
  currentIndex s < List.length batch /\
  (3 < List.length batch -> currentIndex s = 3) /\
  noMore s = (3 =? List.length batch) /\
  (render s = AllCaughtUp <-> 3 = List.length batch).
Proof.
  intros batch.
  apply (@cursor_counts_acknowledged_decisions investor7
           (fun _ => Fulfilled accepted) batch [true; false; true] 3).
  - intros req. exists accepted. split; reflexivity.
  - discriminate.
  - cbn. lia.
  - cbn. lia.
Defined.

(** *** One decision in flight *)

Lemma click_while_guarded (props : Props) (sys : Sys State) liked :
  guarded (live sys) -> step sys (click props liked) = sys.
Proof.
  intros Hguard. unfold step, click.
  rewrite (@guarded_handleSwipe props (live sys) liked Hguard). reflexivity.
Qed.

Lemma clicks_while_guarded (props : Props) (sys : Sys State) bs :
  guarded (live sys) -> steps sys (map (click props) bs) = sys.
Proof.
  intros Hguard. unfold steps.
  induction bs as [|b bs IH]; cbn [map fold_left]; [reflexivity|].
  rewrite click_while_guarded by exact Hguard. exact IH.
Qed.

Lemma steps_app (St : Type) (sys : Sys St) es es' :
  steps sys (es ++ es') = steps (steps sys es) es'.
Proof. apply fold_left_app. Qed.

Lemma steps_cons (St : Type) (sys : Sys St) e es :
  steps sys (e :: es) = steps (step sys e) es.
Proof. reflexivity. Qed.

Lemma burst_is_one_decision (props : Props) (s : State) liked bs bs' r :
  let final := steps (idle s) (burst props liked bs bs' r) in
  final = steps (idle s) [click props liked; Settle 0 (Fulfilled r); Resume 0] /\
  currentIndex (live final) <= currentIndex s + 1 /\
  List.length (requests (trace final)) <= 1.
Proof.
  unfold burst.
  rewrite !steps_cons, steps_app, !steps_cons, steps_app, !steps_cons.
  assert (Hcases : guarded s \/
            (swiping s = None /\ currentIndex s < List.length (recommendations s))).
  { unfold guarded. destruct (swiping s).
    - left. left. discriminate.
    - destruct (Nat.lt_ge_cases (currentIndex s) (List.length (recommendations s)));
        [right; split; [reflexivity | assumption] | left; right; assumption]. }
  destruct Hcases as [Hguard | (Hswiping & Hlt)].
  - rewrite (@click_while_guarded props (idle s) liked) by exact Hguard.
    rewrite (@clicks_while_guarded props (idle s) bs) by exact Hguard.
    change (step (idle s) (Settle 0 (Fulfilled r))) with (idle s).
    rewrite (@clicks_while_guarded props (idle s) bs') by exact Hguard.
    cbn. repeat split; lia.
  - destruct (@unguarded_handleSwipe props s liked Hswiping Hlt) as (c & _ & Heq).
    change (step (idle s) (click props liked))
      with (exec (handleSwipe props s liked) (idle s)).
    rewrite Heq. cbn [exec live tasks trace idle app].
    match goal with
    | |- context [steps ?sys (map (click props) bs)] =>
        rewrite (@clicks_while_guarded props sys bs) by (left; cbn; discriminate)
    end.
    cbn [step nth_error tasks without remove_nth exec live trace app].
    match goal with
    | |- context [steps ?sys (map (click props) bs')] =>
        rewrite (@clicks_while_guarded props sys bs') by (left; cbn; discriminate)
    end.
    cbn [steps fold_left step nth_error tasks without remove_nth exec live trace].
    destruct (List.length (recommendations s) <=? currentIndex s + 1);
      cbn; repeat split; lia.
Qed.

(** At most one decision is in flight, and only while [swiping] is set:
    the property is kept by every click, settled write and timer. *)
Lemma oneInFlight_step (props : Props) (sys : Sys State) e :
  oneInFlight sys -> SwipeEvent props e -> oneInFlight (step sys e).
Proof.
  intros Hinv He. destruct He as [liked | i o | i].
  - destruct Hinv as [(Htasks & Hswiping) | (task & Htasks & Htask & Hswiping)].
    + destruct (Nat.lt_ge_cases (currentIndex (live sys))
                  (List.length (recommendations (live sys)))) as [Hlt | Hge].
      * destruct (@unguarded_handleSwipe props (live sys) liked Hswiping Hlt)
          as (c & _ & Heq).
        change (step sys (click props liked))
          with (exec (handleSwipe props (live sys) liked) sys).
        rewrite Heq. cbn [exec live tasks trace]. right. rewrite Htasks.
        eexists. split; [reflexivity|]. cbn [live]. split; [|discriminate].
        destruct (List.length (recommendations (live sys)) <=? currentIndex (live sys) + 1);
          apply write_pending; intros x; reflexivity.
      * rewrite click_while_guarded by (right; exact Hge). left. auto.
    + rewrite click_while_guarded by (left; exact Hswiping).
      right. exists task. auto.
  - destruct Hinv as [(Htasks & Hswiping) | (task & Htasks & Htask & Hswiping)].
    + unfold step. rewrite Htasks. destruct i; cbn; left; auto.
    + unfold step. rewrite Htasks. destruct i as [|i]; cbn [nth_error].
      * destruct Htask as [req f Hf | f Hf]; [|destruct o; right; eauto using timer_pending].
        destruct o as [r|]; unfold without; rewrite Htasks; cbn.
        -- right. eexists. split; [reflexivity|].
           split; [apply timer_pending; exact Hf | exact Hswiping].
        -- left. auto.
      * destruct i; cbn; right; eauto.
  - destruct Hinv as [(Htasks & Hswiping) | (task & Htasks & Htask & Hswiping)].
    + unfold step. rewrite Htasks. destruct i; cbn; left; auto.
    + unfold step. rewrite Htasks. destruct i as [|i]; cbn [nth_error].
      * destruct Htask as [req f Hf | f Hf]; [right; eauto using write_pending|].
        unfold without. rewrite Htasks. cbn. left. split; [reflexivity|].
        cbn [live]. unfold keepsSwiping in Hf. rewrite Hf. reflexivity.
      * destruct i; cbn; right; eauto.
Qed.

Lemma oneInFlight_steps (props : Props) es :
  Forall (SwipeEvent props) es ->
  forall sys, oneInFlight sys -> oneInFlight (steps sys es).
Proof.
  induction 1 as [|e es He _ IH]; intros sys Hinv; [exact Hinv|].
  rewrite steps_cons. apply IH. apply (oneInFlight_step Hinv He).
Qed.

(** In every system reached from a session at rest, at most one write or
    timer is pending, and a pending one closes the guard. *)
Lemma pending_decision_closes_the_guard (props : Props) (s : State) es :
  swiping s = None ->
  Forall (SwipeEvent props) es ->
  let sys := steps (idle s) es in
  List.length (tasks sys) <= 1 /\
  (tasks sys <> [] -> guarded (live sys)).
Proof.
  intros Hswiping Hes sys.
  assert (Hinv : oneInFlight sys).
  { apply (oneInFlight_steps Hes). left. split; [reflexivity | exact Hswiping]. }
  destruct Hinv as [(Htasks & _) | (task & Htasks & _ & Hset)]; rewrite Htasks.
  - split; [cbn; lia | congruence].
  - split; [cbn; lia | intros _; left; exact Hset].
Qed.

(** C4: a decision issued while [swiping] is set (a write is pending or
    the card is animating out), or with the cursor at or past the end of
    the batch, changes nothing: the live state, the pending tasks and the
    trace of requests are the same.  Hence a burst of clicks around one
    decision ends exactly like that one decision: at most one write is
    sent and the cursor moves by at most 1. *)
Theorem second_decision_is_noop (props : Props) :
  (forall (sys : Sys State) liked,
      guarded (live sys) -> step sys (click props liked) = sys) /\
  (forall (s : State) liked bs bs' r,
      let final := steps (idle s) (burst props liked bs bs' r) in
      final = steps (idle s) [click props liked; Settle 0 (Fulfilled r); Resume 0] /\
      currentIndex (live final) <= currentIndex s + 1 /\
      List.length (requests (trace final)) <= 1).
Proof.
  split.
  - intros sys liked. apply click_while_guarded.
  - intros s liked bs bs' r. apply burst_is_one_decision.
Qed.

(** C4 on the batch [A; B; C]: a second click while the like of A is
    pending, and a click on a session whose cursor is past the batch. *)
Lemma second_decision_is_noop_witness :
  let pending := step (idle (ready [candidateA; candidateB; candidateC]))
                   (click investor7 true) in
  let past := idle (setCurrentIndex (fun _ => 3)
                      (ready [candidateA; candidateB; candidateC])) in
  swiping (live pending) = Some Right /\
  step pending (click investor7 false) = pending /\
  step past (click investor7 true) = past.
Proof.
  intros pending past. split; [reflexivity|]. split.
  - apply (proj1 (second_decision_is_noop investor7) pending false).
    left. discriminate.
  - apply (proj1 (second_decision_is_noop investor7) past true).
    right. cbn. lia.
Defined.

End SwipeClaims.

(** ** The interaction ledger client *)

Section Ledger.

Import InteractionHistory.

Lemma setLoading_twice (v w : bool) (s : State) :
  setLoading v (setLoading w s) = setLoading v s.
Proof. reflexivity. Qed.

(** [fetchHistory] when the read delivers an object. *)
Lemma fetchHistory_fulfilled (props : Props) net (s : State) r d :
  net (historyRead props) = Fulfilled r ->
  payload r = Some (Obj d) ->
  run net (fetchHistory props) s =
    (setLoading false
       (setDisliked (orEmpty (Data.disliked d))
          (setLiked (orEmpty (Data.liked d)) (setLoading true s))),
     [Sent (historyRead props)]).
Proof.
  intros Hnet Hbody. unfold fetchHistory. cbn [run].
  fold (historyRead props). rewrite Hnet. cbn [run]. rewrite Hbody. reflexivity.
Qed.

(** [fetchHistory] when the request, the parsing or the property read
    throws. *)
Lemma fetchHistory_thrown (props : Props) net (s : State) :
  throws (net (historyRead props)) ->
  run net (fetchHistory props) s =
    (setLoading false s,
     [Sent (historyRead props); Logged "Failed to fetch interactions:"]).
Proof.
  unfold throws, fetchHistory. cbn [run]. fold (historyRead props).
  destruct (net (historyRead props)) as [r|]; cbn [run].
  - intros [-> | ->]; reflexivity.
  - reflexivity.
Qed.

(** C10: when the history fetch throws (the request is rejected, the body
    is not JSON, or it is [null]), the only change to the component state
    is that [loading] is false: [liked] and [disliked] are what they
    were, and nothing but the one GET was sent. *)
Theorem failed_history_fetch_keeps_lists (props : Props) net (s : State) :
  throws (net (historyRead props)) ->
  let s' := fst (run net (fetchHistory props) s) in
  let t := snd (run net (fetchHistory props) s) in
  s' = setLoading false s /\
  liked s' = liked s /\
  disliked s' = disliked s /\
  loading s' = false /\
  requests t = [historyRead props].
Proof.
  intros Hthrow. cbv zeta.
  rewrite (fetchHistory_thrown props net s Hthrow).
  repeat split; reflexivity.
Qed.

(** C10 on a history showing A liked and B passed, with the network down. *)
Lemma failed_history_fetch_keeps_lists_witness :
  let s' := fst (run (fun _ => Rejected) (fetchHistory investor7) shown) in
  let t := snd (run (fun _ => Rejected) (fetchHistory investor7) shown) in
  s' = setLoading false shown /\
  liked s' = liked shown /\
  disliked s' = disliked shown /\
  loading s' = false /\
  requests t = [historyRead investor7].
Proof.
  apply (@failed_history_fetch_keeps_lists investor7 (fun _ => Rejected) shown).
  exact I.
Defined.

(** [updateInteraction], by how the write settles. *)
Lemma updateInteraction_fulfilled (props : Props) net (s : State) targetId newStatus r :
  net (statusWrite props targetId newStatus) = Fulfilled r ->
  run net (updateInteraction props targetId newStatus) s =
    (let (s', t) := run net (andThen (fetchHistory props) (Update (setUpdating None) Done))
                      (setUpdating (Some targetId) s) in
     (s', Sent (statusWrite props targetId newStatus) :: t)).
Proof.
  intros Hnet. unfold updateInteraction. cbn [run].
  fold (statusWrite props targetId newStatus). rewrite Hnet. reflexivity.
Qed.

Lemma updateInteraction_rejected (props : Props) net (s : State) targetId newStatus :
  net (statusWrite props targetId newStatus) = Rejected ->
  run net (updateInteraction props targetId newStatus) s =
    (setUpdating None s,
     [Sent (statusWrite props targetId newStatus);
      Logged "Failed to update interaction:"]).
Proof.
  intros Hnet. unfold updateInteraction. cbn [run].
  fold (statusWrite props targetId newStatus). rewrite Hnet. reflexivity.
Qed.

(** C6: when the status write is acknowledged and the read that follows
    delivers the server's lists, the component has sent exactly the PUT
    and then the GET of the full history, and its [liked] and [disliked]
    are the lists of that read (an absent list reads as empty), whatever
    they were before. *)
Theorem update_refetches_lists
    (props : Props) net (s : State) targetId newStatus r r' d :
  net (statusWrite props targetId newStatus) = Fulfilled r ->
  ok r = true ->
  net (historyRead props) = Fulfilled r' ->
  payload r' = Some (Obj d) ->
  let s' := fst (run net (updateInteraction props targetId newStatus) s) in
  let t := snd (run net (updateInteraction props targetId newStatus) s) in
  requests t = [statusWrite props targetId newStatus; historyRead props] /\
  liked s' = orEmpty (Data.liked d) /\
  disliked s' = orEmpty (Data.disliked d) /\
  (forall l l', Data.liked d = Some l -> Data.disliked d = Some l' ->
                liked s' = l /\ disliked s' = l') /\
  loading s' = false /\
  updating s' = None.
Proof.
  intros Hput _ Hget Hbody. cbv zeta.
  rewrite (updateInteraction_fulfilled props net s targetId newStatus Hput).
  unfold fetchHistory. cbn [andThen run]. fold (historyRead props).
  rewrite Hget. cbn [run]. rewrite Hbody. cbn.
  do 3 (split; [reflexivity|]).
  split; [|split; reflexivity].
  intros l l' Hl Hl'. rewrite Hl, Hl'. split; reflexivity.
Qed.

(** C6 on the history showing A liked and B passed: "Change to pass" on
    A, acknowledged, then the fresh read. *)
Lemma update_refetches_lists_witness :
  let s' := fst (run ledgerAfterPass (updateInteraction investor7 1 0) shown) in
  let t := snd (run ledgerAfterPass (updateInteraction investor7 1 0) shown) in
  requests t = [statusWrite investor7 1 0; historyRead investor7] /\
  liked s' = [] /\
  disliked s' = [candidateB; candidateA] /\
  (forall l l', Some [] = Some l -> Some [candidateB; candidateA] = Some l' ->
                liked s' = l /\ disliked s' = l') /\
  loading s' = false /\
  updating s' = None.
Proof.
  apply (@update_refetches_lists investor7 ledgerAfterPass shown 1 0%Z accepted
           (serverLists [] [candidateB; candidateA])
           {| Data.recommendations := None; Data.liked := Some [];
              Data.disliked := Some [candidateB; candidateA];
              Data.results := None |});
    reflexivity.
Defined.

(** *** The wire encoding of a status change *)

Lemma fetchHistory_requests (props : Props) net (s : State) k :
  requests (snd (run net (andThen (fetchHistory props) (Update k Done)) s))
    = [historyRead props].
Proof.
  unfold fetchHistory. cbn [andThen run]. fold (historyRead props).
  destruct (net (historyRead props)) as [r|]; cbn [run].
  - destruct (payload r) as [[|d]|]; reflexivity.
  - reflexivity.
Qed.

(** The read follows every fulfilled write, however the read settles. *)
Lemma fulfilled_update_always_refetches
    (props : Props) net (s : State) targetId newStatus r :
  net (statusWrite props targetId newStatus) = Fulfilled r ->
  requests (snd (run net (updateInteraction props targetId newStatus) s)) =
    [statusWrite props targetId newStatus; historyRead props].
Proof.
  intros Hput.
  rewrite (updateInteraction_fulfilled props net s targetId newStatus Hput).
  pose proof (fetchHistory_requests props net (setUpdating (Some targetId) s)
                (setUpdating None)) as Hget.
  destruct (run net (andThen (fetchHistory props)
              (Update (setUpdating None) Done)) (setUpdating (Some targetId) s))
    as [s' t'].
  cbn [snd] in *. cbn [requests flat_map app]. fold (requests t').
  rewrite Hget. reflexivity.
Qed.

(** C7: whichever button of a row is clicked, by an investor or by a
    company, the handler sends exactly one PUT; it goes to the
    /interactions route of that viewer and target, and its body is
    [{ new_status: n }] with n = 1 for like, 0 for dislike and -1 for
    remove.  Anything sent after it is the GET of the history. *)
Theorem status_write_uses_sentinels
    (props : Props) (item : Candidate) (b : Button) net (s : State) :
  let t := snd (run net (onClick props item b) s) in
  exists rest,
    requests t =
      {| method := PUT;
         url := updateEndpoint props (targetOf props item);
         headers := [("Content-Type", "application/json")];
         body := Some [("new_status", Js.Num (sentinel (meaning b)))] |} :: rest /\
    Forall (fun req => method req = GET) rest /\
    In (sentinel (meaning b)) [1; 0; -1]%Z.
Proof.
  cbv zeta. unfold onClick. fold (targetOf props item).
  set (id := targetOf props item).
  assert (Hrun : forall n,
    exists rest,
      requests (snd (run net (updateInteraction props id n) s)) =
        statusWrite props id n :: rest /\
      Forall (fun req => method req = GET) rest).
  { intros n.
    destruct (net (statusWrite props id n)) as [r|] eqn:Hput.
    - rewrite (updateInteraction_fulfilled props net s id n Hput).
      pose proof (fetchHistory_requests props net (setUpdating (Some id) s)
                    (setUpdating None)) as Hget.
      destruct (run net (andThen (fetchHistory props)
                  (Update (setUpdating None) Done)) (setUpdating (Some id) s))
        as [s' t'].
      cbn [snd] in *. exists [historyRead props]. cbn [requests flat_map app].
      fold (requests t'). rewrite Hget. split; [reflexivity|].
      constructor; [reflexivity | constructor].
    - rewrite (updateInteraction_rejected props net s id n Hput).
      exists []. split; [reflexivity | constructor]. }
  destruct b; cbn [meaning sentinel].
  - destruct (Hrun 0%Z) as (rest & Hreq & Hrest). exists rest.
    repeat split; auto. cbn. auto.
  - destruct (Hrun 1%Z) as (rest & Hreq & Hrest). exists rest.
    repeat split; auto. cbn. auto.
  - destruct (Hrun (-1)%Z) as (rest & Hreq & Hrest). exists rest.
    repeat split; auto. cbn. auto.
Qed.

(** The two requests an investor and a company send for "Remove from
    list" on candidate B. *)
Lemma remove_on_the_wire :
  let asInvestor := onClick investor7 candidateB RemoveFromList in
  let asCompany :=
    onClick {| type := company; userId := 9 |} candidateB RemoveFromList in
  hd_error (requests (snd (run (fun _ => Rejected) asInvestor shown))) =
    Some {| method := PUT;
            url := "http://localhost:8000/api/interactions/investor/7/company/2";
            headers := [("Content-Type", "application/json")];
            body := Some [("new_status", Js.Num (-1))] |} /\
  hd_error (requests (snd (run (fun _ => Rejected) asCompany shown))) =
    Some {| method := PUT;
            url := "http://localhost:8000/api/interactions/company/9/investor/2";
            headers := [("Content-Type", "application/json")];
            body := Some [("new_status", Js.Num (-1))] |}.
Proof. split; reflexivity. Qed.

(** Every button a row can show is one of the three. *)
Lemma rowButtons_meaning (tab : ActiveList) :
  map meaning (rowButtons tab) =
    match tab with
    | likedTab => [dislike; remove]
    | dislikedTab => [like; remove]
    end.
Proof. destruct tab; reflexivity. Qed.

(** *** A status write that fails *)

(** C8, evaluated on the code: the history shows A liked and B passed;
    "Change to pass" on A is answered with HTTP 500, and so is the read
    that follows, each with a JSON error body.  Neither status is
    looked at: both lists are replaced by the empty list. *)
Theorem failed_update_clears_lists :
  let net := fun _ : Request => Fulfilled serverError in
  let s' := fst (run net (updateInteraction investor7 1 0) shown) in
  ok serverError = false /\
  liked shown = [candidateA] /\
  disliked shown = [candidateB] /\
  liked s' = [] /\
  disliked s' = [].
Proof. repeat split; reflexivity. Qed.

(** The part of C8 the code keeps: when the write is rejected (transport
    failure) nothing is read back and the lists are untouched. *)
Lemma rejected_update_keeps_lists (props : Props) net (s : State) targetId newStatus :
  net (statusWrite props targetId newStatus) = Rejected ->
  let s' := fst (run net (updateInteraction props targetId newStatus) s) in
  s' = setUpdating None s /\ liked s' = liked s /\ disliked s' = disliked s.
Proof.
  intros Hnet. cbv zeta.
  rewrite (updateInteraction_rejected props net s targetId newStatus Hnet).
  repeat split; reflexivity.
Qed.

End Ledger.

(** ** The debounced search *)

Section DebouncedSearch.

Import SearchBar.

Lemma trimStart_blank (q : jsstring) : blank q -> trimStart q = [].
Proof.
  induction 1 as [|c q Hc _ IH]; cbn; [reflexivity|].
  rewrite Hc. exact IH.
Qed.

(** What [trimStart] leaves starts with a code unit that is kept. *)
Lemma trimStart_head (q : jsstring) c rest :
  trimStart q = c :: rest -> isWhiteSpace c = false.
Proof.
  induction q as [|x q IH]; cbn; [discriminate|].
  destruct (isWhiteSpace x) eqn:Hx; [exact IH|].
  intros [= <- _]. exact Hx.
Qed.

Lemma trimStart_empty (q : jsstring) : trimStart q = [] -> blank q.
Proof.
  induction q as [|x q IH]; cbn; [constructor|].
  destruct (isWhiteSpace x) eqn:Hx; [|discriminate].
  intros Hq. constructor; [exact Hx | exact (IH Hq)].
Qed.

Lemma trim_blank (q : jsstring) : blank q -> trim q = [].
Proof. intros Hq. unfold trim. rewrite (trimStart_blank Hq). reflexivity. Qed.

Lemma trim_empty (q : jsstring) : trim q = [] -> blank q.
Proof.
  unfold trim, trimEnd. intros Hq.
  assert (Hrev : trimStart (rev (trimStart q)) = []).
  { rewrite <- (rev_involutive (trimStart (rev (trimStart q)))), Hq. reflexivity. }
  apply trimStart_empty in Hrev.
  destruct (trimStart q) as [|c rest] eqn:Hstart; [apply trimStart_empty; exact Hstart|].
  apply trimStart_head in Hstart.
  assert (Hc : isWhiteSpace c = true).
  { unfold blank in Hrev. rewrite Forall_forall in Hrev.
    apply Hrev. apply in_rev. rewrite rev_involutive. left. reflexivity. }
  congruence.
Qed.

Lemma not_blank (q : jsstring) :
  ~ blank q -> exists c, In c q /\ isWhiteSpace c = false.
Proof.
  induction q as [|x q IH]; intros Hq.
  - destruct Hq. constructor.
  - destruct (isWhiteSpace x) eqn:Hx.
    + destruct IH as (c & Hin & Hc).
      * intros Hblank. apply Hq. constructor; assumption.
      * exists c. split; [right; exact Hin | exact Hc].
    + exists x. split; [left; reflexivity | exact Hx].
Qed.

Variable encodeURIComponent : jsstring -> option string.
Variable searchType : SearchType.
Variable net : Request -> Settled.

Lemma fired_blank (s : State) :
  blank (query s) -> fired encodeURIComponent searchType net s = (setResults [] s, []).
Proof.
  intros Hq. unfold fired, debouncedSearch. cbn [run].
  rewrite (trim_blank Hq). reflexivity.
Qed.

Lemma fired_not_blank (s : State) :
  ~ blank (query s) ->
  fired encodeURIComponent searchType net s =
    run net (performSearch encodeURIComponent searchType (query s)) s.
Proof.
  intros Hq. unfold fired, debouncedSearch. cbn [run].
  destruct (trim (query s)) as [|c rest] eqn:Htrim.
  - destruct Hq. apply trim_empty. exact Htrim.
  - cbn [truthy].
    destruct (run net (performSearch encodeURIComponent searchType (query s)) s)
      as [s' t].
    reflexivity.
Qed.

End DebouncedSearch.

Section SearchClaims.

Import SearchBar.

(** C9: when the query is empty or made of white space only, the timer
    of the debounced effect sends nothing and sets [results] to the
    empty list, leaving the rest of the state alone; and whenever the
    timer does send a request, the query has a code unit that is not
    white space. *)
Theorem blank_query_sends_no_search
    (encodeURIComponent : jsstring -> option string) (searchType : SearchType)
    (net : Request -> Settled) (s : State) :
  (blank (query s) ->
   fired encodeURIComponent searchType net s = (setResults [] s, []) /\
   results (fst (fired encodeURIComponent searchType net s)) = [] /\
   requests (snd (fired encodeURIComponent searchType net s)) = []) /\
  (forall req,
      In req (requests (snd (fired encodeURIComponent searchType net s))) ->
      exists c, In c (query s) /\ isWhiteSpace c = false).
Proof.
  split.
  - intros Hq. rewrite (@fired_blank encodeURIComponent searchType net s Hq).
    repeat split; reflexivity.
  - intros req Hreq.
    destruct (Forall_dec (fun c => isWhiteSpace c = true)
                (fun c => bool_dec (isWhiteSpace c) true) (query s))
      as [Hq | Hq].
    + rewrite (@fired_blank encodeURIComponent searchType net s Hq) in Hreq.
      destruct Hreq.
    + apply not_blank. exact Hq.
Qed.

(** C9 on the query made of a space, a tab and a line feed, with stale
    results on screen. *)
Lemma blank_query_sends_no_search_witness :
  let s := {| query := [32; 9; 10]%N; results := [candidateA]; loading := false;
              showResults := true |} in
  let out := fired (fun _ => Some "q") companies (fun _ => Fulfilled accepted) s in
  out = (setResults [] s, []) /\
  results (fst out) = [] /\
  requests (snd out) = [].
Proof.
  intros s out.
  apply (proj1 (blank_query_sends_no_search (fun _ => Some "q") companies
                  (fun _ => Fulfilled accepted) s)).
  repeat constructor.
Defined.

(** A query with content does reach [performSearch]. *)
Lemma query_with_content_is_searched :
  let s := {| query := [32; 97; 105; 32]%N; results := []; loading := false;
              showResults := false |} in
  requests (snd (fired (fun _ => Some "%20ai%20") companies
                   (fun _ => Fulfilled accepted) s)) =
    [get "http://localhost:8000/api/search/companies?q=%20ai%20&limit=10"].
Proof. reflexivity. Qed.

End SearchClaims.

(** * Further properties *)

Unset Implicit Arguments.

(** ** Sessions of swipes *)

Section SwipeSessions.

Import SwipeRecommendations.

(** One [handleSwipe] carried through on a card, by how the write settles. *)
Lemma run_handleSwipe (props : Props) net (s : State) liked c :
  swiping s = None ->
  nth_error (recommendations s) (currentIndex s) = Some c ->
  run net (handleSwipe props s liked) s =
    match net (swipeWrite props c liked) with
    | Fulfilled _ =>
        (if List.length (recommendations s) <=? currentIndex s + 1
         then setNoMore true s
         else setCurrentIndex (fun prev => prev + 1) s,
         [Sent (swipeWrite props c liked)])
    | Rejected =>
        (s, [Sent (swipeWrite props c liked); Logged "Swipe failed:"])
    end.
Proof.
  intros Hswiping Hcur.
  assert (Hlt : currentIndex s < List.length (recommendations s))
    by (apply nth_error_Some; congruence).
  apply Nat.leb_gt in Hlt.
  unfold handleSwipe. rewrite Hswiping, Hcur, Hlt. cbn [is_set orb run].
  fold (swipeWrite props c liked).
  destruct (net (swipeWrite props c liked)) as [r|]; cbn [run].
  - destruct (List.length (recommendations s) <=? currentIndex s + 1);
      destruct s; cbn in *; subst; reflexivity.
  - destruct s; cbn in *; subst; reflexivity.
Qed.

(** X3: whatever the server answers, one decision keeps the batch, the
    loading flag and the error, moves the cursor by 0 or 1, never moves it
    off the batch, and never lowers [noMore]. *)
Theorem swipe_keeps_cursor_in_batch (props : Props) net (s : State) liked :
  let s' := decide props net s liked in
  recommendations s' = recommendations s /\
  loading s' = loading s /\
  error s' = error s /\
  currentIndex s <= currentIndex s' <= currentIndex s + 1 /\
  (currentIndex s < List.length (recommendations s) ->
   currentIndex s' < List.length (recommendations s)) /\
  (noMore s = true -> noMore s' = true).
Proof.
  cbv zeta. unfold decide.
  destruct (swiping s) as [d|] eqn:Hswiping.
  { rewrite (@guarded_handleSwipe props s liked) by (left; congruence).
    cbn. repeat split; auto; lia. }
  destruct (nth_error (recommendations s) (currentIndex s)) as [c|] eqn:Hcur.
  - rewrite (run_handleSwipe props net s liked c Hswiping Hcur).
    destruct (net (swipeWrite props c liked)) as [r|]; cbn [fst].
    + destruct (List.length (recommendations s) <=? currentIndex s + 1) eqn:Hlast;
        cbn; repeat split; auto; try lia.
      apply Nat.leb_gt in Hlast. lia.
    + repeat split; auto; lia.
  - apply nth_error_None in Hcur.
    rewrite (@guarded_handleSwipe props s liked) by (right; exact Hcur).
    cbn. repeat split; auto; lia.
Qed.

Lemma requests_app (t t' : list Effect) :
  requests (t ++ t') = requests t ++ requests t'.
Proof. unfold requests. apply flat_map_app. Qed.

Lemma skipn_nth_error (A : Type) (l : list A) (n : nat) (x : A) :
  nth_error l n = Some x -> skipn n l = x :: skipn (S n) l.
Proof.
  revert n. induction l as [|y l IH]; intros [|n]; cbn; try discriminate.
  - intros [= ->]. reflexivity.
  - intros Hn. rewrite (IH n Hn). reflexivity.
Qed.

(** On a session at rest that is not exhausted the card is on screen with
    both buttons enabled. *)
Lemma card_at_rest (batch : list Candidate) (s : State) :
  atRest batch s ->
  noMore s = false ->
  exists c,
    nth_error (recommendations s) (currentIndex s) = Some c /\
    render s = Card c false /\
    offers s Like = true /\ offers s Pass = true.
Proof.
  intros (Hrecs & Hswiping & Hloading & Herror & Hlt) Hmore.
  destruct (nth_error (recommendations s) (currentIndex s)) as [c|] eqn:Hcur.
  - exists c. split; [reflexivity|].
    assert (Hview : render s = Card c false).
    { unfold render. rewrite Hloading, Hmore, Hcur, Herror, Hswiping. reflexivity. }
    unfold offers. rewrite Hview. repeat split; reflexivity.
  - apply nth_error_None in Hcur. rewrite Hrecs in Hcur. lia.
Qed.

(** Once [noMore] is set the screen has neither Like nor Pass. *)
Lemma no_swipe_after_exhaustion (s : State) (b : Button) :
  noMore s = true ->
  b = Like \/ b = Pass ->
  offers s b = false.
Proof.
  intros Hmore Hb. unfold offers, render. rewrite Hmore.
  destruct (loading s && (List.length (recommendations s) =? 0));
    destruct Hb as [-> | ->]; reflexivity.
Qed.

Lemma swipeButton_cases (d : bool * Settled) :
  swipeButton d = Like \/ swipeButton d = Pass.
Proof. unfold swipeButton. destruct (fst d); auto. Qed.

Lemma onClick_swipeButton (props : Props) (d : bool * Settled) (s : State) :
  onClick props (swipeButton d) s = handleSwipe props s (fst d).
Proof. unfold swipeButton. destruct (fst d); reflexivity. Qed.

(** One click of a session at rest. *)
Lemma pressed_at_rest (props : Props) (batch : list Candidate) (s : State)
    (t : list Effect) (d : bool * Settled) :
  atRest batch s ->
  noMore s = false ->
  exists c,
    nth_error batch (currentIndex s) = Some c /\
    pressed props (fun _ => snd d) (swipeButton d) (s, t) =
      match snd d with
      | Fulfilled _ =>
          (if List.length batch <=? currentIndex s + 1
           then setNoMore true s
           else setCurrentIndex (fun prev => prev + 1) s,
           t ++ [Sent (swipeWrite props c (fst d))])
      | Rejected =>
          (s, t ++ [Sent (swipeWrite props c (fst d)); Logged "Swipe failed:"])
      end.
Proof.
  intros Hrest Hmore.
  destruct (card_at_rest batch s Hrest Hmore) as (c & Hcur & _ & Hlike & Hpass).
  destruct Hrest as (Hrecs & Hswiping & _).
  exists c. split; [rewrite <- Hrecs; exact Hcur|].
  unfold pressed.
  assert (Hoffer : offers s (swipeButton d) = true)
    by (unfold swipeButton; destruct (fst d); assumption).
  rewrite Hoffer, onClick_swipeButton.
  rewrite (run_handleSwipe props (fun _ => snd d) s (fst d) c Hswiping Hcur).
  rewrite Hrecs. destruct (snd d); reflexivity.
Qed.

Lemma pressed_exhausted (props : Props) net (s : State) (t : list Effect)
    (d : bool * Settled) :
  noMore s = true ->
  pressed props net (swipeButton d) (s, t) = (s, t).
Proof.
  intros Hmore. unfold pressed.
  rewrite (no_swipe_after_exhaustion s _ Hmore (swipeButton_cases d)). reflexivity.
Qed.

Lemma session_unfold (props : Props) (ds : list (bool * Settled)) (s : State) :
  session props ds s = fold_left (sessionStep props) ds (s, []).
Proof. reflexivity. Qed.

Lemma session_exhausted (props : Props) (ds : list (bool * Settled))
    (s : State) (t : list Effect) :
  noMore s = true ->
  fold_left (sessionStep props) ds (s, t) = (s, t).
Proof.
  intros Hmore. induction ds as [|d ds IH]; [reflexivity|].
  cbn [fold_left].
  change (sessionStep props (s, t) d)
    with (pressed props (fun _ => snd d) (swipeButton d) (s, t)).
  rewrite (pressed_exhausted props _ s t d Hmore). exact IH.
Qed.

Lemma session_cursor (props : Props) (batch : list Candidate) :
  forall (ds : list (bool * Settled)) (s : State) (t : list Effect),
    atRest batch s ->
    noMore s = false ->
    let s' := fst (fold_left (sessionStep props) ds (s, t)) in
    atRest batch s' /\
    currentIndex s' =
      Nat.min (currentIndex s + fulfilledCount ds) (List.length batch - 1) /\
    noMore s' = (List.length batch <=? currentIndex s + fulfilledCount ds).
Proof.
  induction ds as [|d ds IH]; intros s t Hrest Hmore.
  - cbn. destruct Hrest as (H1 & H2 & H3 & H4 & H5).
    unfold atRest. rewrite Hmore, Nat.add_0_r.
    repeat split; auto; [lia|]. symmetry. apply Nat.leb_gt. exact H5.
  - cbn [fold_left].
    change (sessionStep props (s, t) d)
      with (pressed props (fun _ => snd d) (swipeButton d) (s, t)).
    destruct (pressed_at_rest props batch s t d Hrest Hmore) as (c & _ & Hstep).
    rewrite Hstep. unfold fulfilledCount. cbn [filter].
    destruct (snd d) as [r|]; cbn [fulfilled].
    + destruct (List.length batch <=? currentIndex s + 1) eqn:Hlast.
      * rewrite session_exhausted by reflexivity. cbn [fst List.length].
        apply Nat.leb_le in Hlast. destruct Hrest as (H1 & H2 & H3 & H4 & H5).
        unfold atRest.
        cbn [setNoMore recommendations swiping loading error currentIndex noMore].
        repeat split; auto; [lia|]. symmetry. apply Nat.leb_le. lia.
      * apply Nat.leb_gt in Hlast. destruct Hrest as (H1 & H2 & H3 & H4 & H5).
        destruct (IH (setCurrentIndex (fun prev => prev + 1) s)
                    (t ++ [Sent (swipeWrite props c (fst d))]))
          as (Hrest' & Hindex & Hmore'); [unfold atRest; cbn; auto | exact Hmore |].
        cbn [setCurrentIndex currentIndex] in Hindex, Hmore'.
        unfold fulfilledCount in Hindex, Hmore'. cbn [List.length].
        split; [exact Hrest'|]. split.
        -- rewrite Hindex. f_equal. lia.
        -- rewrite Hmore'. f_equal. lia.
    + apply (IH s _ Hrest Hmore).
Qed.

(** X1: in a session on a non-empty batch of size M, after any run of Like
    and Pass clicks, each write fulfilled or rejected, the cursor is
    min f (M - 1) for f the number of fulfilled writes: a rejected write
    does not count, and the same candidate stays on screen.  [noMore] is
    set, and the "All caught up!" screen shown, exactly when f reaches M;
    clicks after that find no button. *)
Theorem cursor_counts_fulfilled_writes
    (props : Props) (batch : list Candidate) (ds : list (bool * Settled)) :
  batch <> [] ->
  let s := fst (session props ds (ready batch)) in
  let f := fulfilledCount ds in
  recommendations s = batch /\
  swiping s = None /\
  currentIndex s = Nat.min f (List.length batch - 1) /\
  noMore s = (List.length batch <=? f) /\
  (render s = AllCaughtUp <-> List.length batch <= f).
Proof.
  intros Hbatch. cbv zeta. rewrite session_unfold.
  assert (Hpos : 0 < List.length batch)
    by (destruct batch; [congruence | cbn; lia]).
  assert (Hready : atRest batch (ready batch))
    by (unfold atRest; cbn; auto).
  destruct (session_cursor props batch ds (ready batch) [] Hready eq_refl)
    as ((Hrecs & Hswiping & Hloading & Herror & Hlt) & Hindex & Hmore).
  cbn [ready currentIndex Nat.add] in Hindex, Hmore.
  set (s := fst (fold_left (sessionStep props) ds (ready batch, []))) in *.
  repeat split; auto.
  - unfold render. rewrite Hloading, Hmore, Herror. cbn [andb].
    destruct (List.length batch <=? fulfilledCount ds) eqn:Hfull;
      [intros _; apply Nat.leb_le; exact Hfull|].
    destruct (nth_error (recommendations s) (currentIndex s)) eqn:Hcur;
      [discriminate|].
    apply nth_error_None in Hcur. rewrite Hrecs in Hcur. lia.
  - intros Hfull. apply Nat.leb_le in Hfull.
    unfold render. rewrite Hloading, Hmore, Hfull. reflexivity.
Qed.

(** X1 on the scenario: like A (fulfilled), pass B (rejected), pass B
    again (fulfilled), like C (fulfilled). *)
Lemma cursor_counts_fulfilled_writes_witness :
  let batch := [candidateA; candidateB; candidateC] in
  let ds := [(true, Fulfilled accepted); (false, Rejected);
             (false, Fulfilled accepted); (true, Fulfilled accepted)] in
  let s := fst (session investor7 ds (ready batch)) in
  recommendations s = batch /\
  swiping s = None /\
  currentIndex s = Nat.min (fulfilledCount ds) (List.length batch - 1) /\
  noMore s = (List.length batch <=? fulfilledCount ds) /\
  (render s = AllCaughtUp <-> List.length batch <= fulfilledCount ds).
Proof.
  intros batch ds.
  apply (cursor_counts_fulfilled_writes investor7 batch ds). discriminate.
Defined.

Lemma session_writes (props : Props) (batch : list Candidate) :
  forall (ds : list (bool * Settled)) (s : State) (t : list Effect),
    atRest batch s ->
    noMore s = false ->
    Forall (fun d => fulfilled (snd d) = true) ds ->
    requests (snd (fold_left (sessionStep props) ds (s, t))) =
      requests t ++
      map (fun cd => swipeWrite props (fst cd) (fst (snd cd)))
        (combine (skipn (currentIndex s) batch) ds).
Proof.
  induction ds as [|d ds IH]; intros s t Hrest Hmore Hds.
  - cbn [fold_left snd]. rewrite combine_nil. cbn [map]. rewrite app_nil_r. reflexivity.
  - cbn [fold_left].
    change (sessionStep props (s, t) d)
      with (pressed props (fun _ => snd d) (swipeButton d) (s, t)).
    destruct (pressed_at_rest props batch s t d Hrest Hmore) as (c & Hcur & Hstep).
    rewrite Hstep. inversion Hds as [|d' ds' Hd Hds' Heq]; subst.
    destruct (snd d) as [r|]; [|discriminate].
    rewrite (skipn_nth_error _ batch (currentIndex s) c Hcur).
    cbn [combine map fst snd].
    destruct (List.length batch <=? currentIndex s + 1) eqn:Hlast.
    + rewrite session_exhausted by reflexivity. cbn [snd].
      apply Nat.leb_le in Hlast.
      rewrite skipn_all2 by lia. cbn [combine map].
      rewrite requests_app. reflexivity.
    + apply Nat.leb_gt in Hlast. destruct Hrest as (H1 & H2 & H3 & H4 & H5).
      rewrite (IH (setCurrentIndex (fun prev => prev + 1) s));
        [| unfold atRest; cbn; auto | exact Hmore | exact Hds'].
      cbn [setCurrentIndex currentIndex]. rewrite requests_app.
      rewrite <- app_assoc. cbn [requests flat_map app].
      replace (currentIndex s + 1) with (S (currentIndex s)) by lia.
      reflexivity.
Qed.

(** X2: in a session whose writes are all fulfilled, the requests sent
    are exactly one POST /swipe per candidate, in the order of the batch,
    each carrying the decision made on that candidate; decisions beyond
    the end of the batch send nothing. *)
Theorem writes_follow_the_batch
    (props : Props) (batch : list Candidate) (ds : list (bool * Settled)) :
  batch <> [] ->
  Forall (fun d => fulfilled (snd d) = true) ds ->
  requests (snd (session props ds (ready batch))) =
    map (fun cd => swipeWrite props (fst cd) (fst (snd cd))) (combine batch ds).
Proof.
  intros Hbatch Hds. rewrite session_unfold.
  assert (Hpos : 0 < List.length batch)
    by (destruct batch; [congruence | cbn; lia]).
  assert (Hready : atRest batch (ready batch))
    by (unfold atRest; cbn; auto).
  rewrite (session_writes props batch ds (ready batch) [] Hready eq_refl Hds).
  reflexivity.
Qed.

(** X2 on the batch [A; B; C] with four fulfilled decisions. *)
Lemma writes_follow_the_batch_witness :
  let ds := [(true, Fulfilled accepted); (false, Fulfilled accepted);
             (true, Fulfilled accepted); (true, Fulfilled accepted)] in
  requests (snd (session investor7 ds (ready [candidateA; candidateB; candidateC]))) =
    [swipeWrite investor7 candidateA true; swipeWrite investor7 candidateB false;
     swipeWrite investor7 candidateC true].
Proof.
  intros ds.
  apply (writes_follow_the_batch investor7 [candidateA; candidateB; candidateC] ds).
  - discriminate.
  - repeat constructor.
Defined.

Lemma fst_pressed (props : Props) net (b : Button) (s : State) (t : list Effect) :
  offers s b = true ->
  fst (pressed props net b (s, t)) = fst (run net (onClick props b s) s).
Proof.
  intros Hoffer. unfold pressed. rewrite Hoffer.
  destruct (run net (onClick props b s) s). reflexivity.
Qed.

(** X4: "Load More" after a batch has been worked through.  Once the
    fulfilled writes have reached the size of the batch the screen offers
    "Load More"; when the server then answers with a non-empty list, the
    session shows the first candidate of the new list with both buttons
    enabled, the cursor back at 0 and [noMore] cleared. *)
Theorem load_more_starts_a_new_batch
    (props : Props) (batch : list Candidate) (ds : list (bool * Settled))
    net r d c l :
  batch <> [] ->
  List.length batch <= fulfilledCount ds ->
  net (recommendationsRead props) = Fulfilled r ->
  payload r = Some (Obj d) ->
  Data.recommendations d = Some (c :: l) ->
  let s := fst (session props ds (ready batch)) in
  let s' := fst (pressed props net LoadMore (s, [])) in
  buttons (render s) = [LoadMore] /\
  recommendations s' = c :: l /\
  currentIndex s' = 0 /\
  noMore s' = false /\
  render s' = Card c false.
Proof.
  intros Hbatch Hfull Hnet Hbody Hrecs. cbv zeta. rewrite session_unfold.
  assert (Hpos : 0 < List.length batch)
    by (destruct batch; [congruence | cbn; lia]).
  assert (Hready : atRest batch (ready batch))
    by (unfold atRest; cbn; auto).
  destruct (session_cursor props batch ds (ready batch) [] Hready eq_refl)
    as ((_ & Hswiping & Hloading & _ & _) & _ & Hmore).
  cbn [ready currentIndex Nat.add] in Hmore.
  apply Nat.leb_le in Hfull. rewrite Hfull in Hmore.
  set (s := fst (fold_left (sessionStep props) ds (ready batch, []))) in *.
  assert (Hview : render s = AllCaughtUp)
    by (unfold render; rewrite Hloading, Hmore; reflexivity).
  rewrite fst_pressed by (unfold offers; rewrite Hview; reflexivity).
  change (fst (run net (onClick props LoadMore s) s)) with (fetched props net s).
  rewrite (@fetch_fills_batch props net s r d c l Hnet Hbody Hrecs).
  rewrite Hview, Hswiping. repeat split; reflexivity.
Qed.

(** X4 on the batch [A; B; C] worked through, then a new batch [B]. *)
Lemma load_more_starts_a_new_batch_witness :
  let ds := [(true, Fulfilled accepted); (false, Fulfilled accepted);
             (true, Fulfilled accepted)] in
  let r := {| status := 200;
              payload := Some (Obj {| Data.recommendations := Some [candidateB];
                                      Data.liked := None; Data.disliked := None;
                                      Data.results := None |}) |} in
  let s := fst (session investor7 ds (ready [candidateA; candidateB; candidateC])) in
  let s' := fst (pressed investor7 (fun _ => Fulfilled r) LoadMore (s, [])) in
  buttons (render s) = [LoadMore] /\
  recommendations s' = [candidateB] /\
  currentIndex s' = 0 /\
  noMore s' = false /\
  render s' = Card candidateB false.
Proof.
  intros ds r.
  apply (load_more_starts_a_new_batch investor7
           [candidateA; candidateB; candidateC] ds (fun _ => Fulfilled r) r
           {| Data.recommendations := Some [candidateB]; Data.liked := None;
              Data.disliked := None; Data.results := None |} candidateB []).
  - discriminate.
  - cbn. lia.
  - reflexivity.
  - reflexivity.
  - reflexivity.
Defined.

(** X5: a fetch that throws while a card is on screen shows the message
    with "Try Again" as its only button; when the retry is answered with a
    non-empty list the error is cleared and the first candidate of that
    list is on screen, the cursor at 0. *)
Theorem try_again_recovers
    (props : Props) (net failing : Request -> Settled) (s : State) r d c l :
  throws (failing (recommendationsRead props)) ->
  noMore s = false ->
  currentIndex s < List.length (recommendations s) ->
  net (recommendationsRead props) = Fulfilled r ->
  payload r = Some (Obj d) ->
  Data.recommendations d = Some (c :: l) ->
  let failed := fetched props failing s in
  let retried := fst (pressed props net TryAgain (failed, [])) in
  render failed = ErrorMessage "Failed to load recommendations" /\
  buttons (render failed) = [TryAgain] /\
  error retried = None /\
  recommendations retried = c :: l /\
  currentIndex retried = 0 /\
  render retried = Card c (is_set (swiping s)).
Proof.
  intros Hthrow Hmore Hlt Hnet Hbody Hrecs. cbv zeta.
  destruct (@thrown_fetch_over_a_card props failing s Hthrow Hmore Hlt)
    as (Hview & Hbuttons).
  split; [exact Hview|]. split; [exact Hbuttons|].
  rewrite fst_pressed by (unfold offers; rewrite Hbuttons; reflexivity).
  change (fst (run net (onClick props TryAgain (fetched props failing s))
                 (fetched props failing s)))
    with (fetched props net (fetched props failing s)).
  rewrite (@fetch_fills_batch props net (fetched props failing s) r d c l
             Hnet Hbody Hrecs).
  rewrite (@fetch_throw_sets_error props failing s Hthrow).
  repeat split; reflexivity.
Qed.

(** X5 on the batch [A; B; C] with the network down, then back. *)
Lemma try_again_recovers_witness :
  let r := {| status := 200;
              payload := Some (Obj {| Data.recommendations := Some [candidateC];
                                      Data.liked := None; Data.disliked := None;
                                      Data.results := None |}) |} in
  let s := ready [candidateA; candidateB; candidateC] in
  let failed := fetched investor7 (fun _ => Rejected) s in
  let retried := fst (pressed investor7 (fun _ => Fulfilled r) TryAgain (failed, [])) in
  render failed = ErrorMessage "Failed to load recommendations" /\
  buttons (render failed) = [TryAgain] /\
  error retried = None /\
  recommendations retried = [candidateC] /\
  currentIndex retried = 0 /\
  render retried = Card candidateC (is_set (swiping s)).
Proof.
  intros r s.
  apply (try_again_recovers investor7 (fun _ => Fulfilled r) (fun _ => Rejected) s r
           {| Data.recommendations := Some [candidateC]; Data.liked := None;
              Data.disliked := None; Data.results := None |} candidateC []).
  - exact I.
  - reflexivity.
  - cbn. lia.
  - reflexivity.
  - reflexivity.
  - reflexivity.
Defined.

(** The invariant of the event loop at a session where A is liked, Pass is
    clicked while the write is pending, and the write is then fulfilled. *)
Lemma pending_decision_closes_the_guard_witness :
  let es := [click investor7 true; click investor7 false;
             Settle 0 (Fulfilled accepted)] in
  let sys := steps (idle (ready [candidateA; candidateB; candidateC])) es in
  List.length (tasks sys) <= 1 /\
  (tasks sys <> [] -> guarded (live sys)).
Proof.
  intros es.
  apply (@pending_decision_closes_the_guard investor7
           (ready [candidateA; candidateB; candidateC]) es).
  - reflexivity.
  - repeat constructor.
Defined.

End SwipeSessions.

(** ** Status changes in the history *)

Section LedgerUpdates.

Import InteractionHistory.

(** X6: whatever the server answers to the write and to the read that
    may follow, [updateInteraction] ends with no row marked as updating
    and the same tab selected; it has sent the PUT first and at most one
    more request; and the two lists are either both what they were or
    both taken from one body of the read, never one without the other.
    When the write is fulfilled, [loading] ends false. *)
Theorem update_is_all_or_nothing
    (props : Props) net (s : State) (targetId : nat) (newStatus : Z) :
  let s' := fst (run net (updateInteraction props targetId newStatus) s) in
  let t := snd (run net (updateInteraction props targetId newStatus) s) in
  updating s' = None /\
  activeList s' = activeList s /\
  hd_error (requests t) = Some (statusWrite props targetId newStatus) /\
  List.length (requests t) <= 2 /\
  ((liked s' = liked s /\ disliked s' = disliked s) \/
   (exists d, liked s' = orEmpty (Data.liked d) /\
              disliked s' = orEmpty (Data.disliked d))) /\
  (fulfilled (net (statusWrite props targetId newStatus)) = true ->
   loading s' = false).
Proof.
  cbv zeta.
  destruct (net (statusWrite props targetId newStatus)) as [r|] eqn:Hput.
  - rewrite (@updateInteraction_fulfilled props net s targetId newStatus r Hput).
    unfold fetchHistory. cbn [andThen run]. fold (historyRead props).
    destruct (net (historyRead props)) as [r'|]; cbn [run].
    + destruct (payload r') as [[|d]|]; cbn;
        repeat split; auto; try lia.
      right. exists d. split; reflexivity.
    + cbn. repeat split; auto; try lia.
  - rewrite (@updateInteraction_rejected props net s targetId newStatus Hput).
    cbn. repeat split; auto; try lia; discriminate.
Qed.

(** The rejected write at the history showing A liked and B passed. *)
Lemma rejected_update_keeps_lists_witness :
  let s' := fst (run (fun _ => Rejected) (updateInteraction investor7 1 0) shown) in
  s' = setUpdating None shown /\ liked s' = liked shown /\ disliked s' = disliked shown.
Proof.
  apply (@rejected_update_keeps_lists investor7 (fun _ => Rejected) shown 1 0%Z).
  reflexivity.
Defined.

(** The read after the write, with a server that fails every read. *)
Lemma fulfilled_update_always_refetches_witness :
  let net := fun req : Request =>
               match method req with
               | PUT => Fulfilled accepted
               | _ => Rejected
               end in
  requests (snd (run net (updateInteraction investor7 1 0) shown)) =
    [statusWrite investor7 1 0; historyRead investor7].
Proof.
  intros net.
  apply (@fulfilled_update_always_refetches investor7 net shown 1 0%Z accepted).
  reflexivity.
Defined.

End LedgerUpdates.

(** ** Searching *)

Section Searching.

Import SearchBar SearchBarEvents.

Variable encodeURIComponent : jsstring -> option string.
Variable searchType : SearchType.

(** X9: whatever the server answers, and whether or not the query can be
    encoded, [performSearch] ends with [loading] false and the query
    untouched, has sent at most one request, and leaves as results either
    the empty list (with the dropdown flag as it was) or the list of the
    response body (with the dropdown opened): results of an earlier search
    never survive. *)
Theorem performSearch_always_settles net (s : State) (q : jsstring) :
  let s' := fst (run net (performSearch encodeURIComponent searchType q) s) in
  let t := snd (run net (performSearch encodeURIComponent searchType q) s) in
  loading s' = false /\
  query s' = query s /\
  List.length (requests t) <= 1 /\
  ((results s' = [] /\ showResults s' = showResults s) \/
   (exists d, results s' = orEmpty (Data.results d) /\ showResults s' = true)).
Proof.
  cbv zeta. unfold performSearch. cbn [run].
  destruct (encodeURIComponent q) as [e|]; cbn [run].
  - destruct (net (get (searchEndpoint searchType e))) as [r|]; cbn [run].
    + destruct (payload r) as [[|d]|]; cbn; repeat split; auto.
      right. exists d. split; reflexivity.
    + cbn. repeat split; auto.
  - cbn. repeat split; auto.
Qed.

(** After any typing the one pending task is the timer of the current
    query and nothing has been sent. *)
Lemma typing_keeps_one_timer (sys : Sys State) (v : jsstring) :
  trace sys = [] ->
  tasks sys = [Timer 300 (debounceCallback encodeURIComponent searchType (query (live sys)))] ->
  let sys' := onChange encodeURIComponent searchType v sys in
  trace sys' = [] /\
  tasks sys' =
    [Timer 300 (debounceCallback encodeURIComponent searchType (query (live sys')))] /\
  query (live sys') = v.
Proof.
  intros Htrace Htasks. cbv zeta. unfold onChange, sameValue.
  destruct (list_eq_dec N.eq_dec v (query (live sys))) as [Heq | Hneq].
  - repeat split; auto.
  - unfold queryChanged, debouncedSearch. cbn [exec live tasks trace].
    rewrite Htasks, Htrace. cbn. repeat split; reflexivity.
Qed.

Lemma last_cons (A : Type) (l : list A) :
  forall v d : A, last (v :: l) d = last l v.
Proof.
  induction l as [|w l IH]; intros v d; [reflexivity|].
  change (last (v :: w :: l) d) with (last (w :: l) d).
  rewrite (IH w d), (IH w v). reflexivity.
Qed.

Lemma typed_invariant (values : list jsstring) :
  forall sys : Sys State,
    trace sys = [] ->
    tasks sys = [Timer 300 (debounceCallback encodeURIComponent searchType (query (live sys)))] ->
    let sys' := fold_left (fun sys v => onChange encodeURIComponent searchType v sys)
                  values sys in
    trace sys' = [] /\
    tasks sys' =
      [Timer 300 (debounceCallback encodeURIComponent searchType (query (live sys')))] /\
    query (live sys') = last values (query (live sys)).
Proof.
  induction values as [|v values IH]; intros sys Htrace Htasks.
  - cbn. auto.
  - cbn [fold_left].
    destruct (typing_keeps_one_timer sys v Htrace Htasks) as (Htrace' & Htasks' & Hquery).
    destruct (IH _ Htrace' Htasks') as (H1 & H2 & H3).
    cbv zeta. split; [exact H1|]. split; [exact H2|].
    rewrite H3, Hquery. symmetry. apply last_cons.
Qed.

(** X10: however many values are typed before the timer fires, nothing is
    sent while typing and exactly one timer is pending; when it fires, the
    only search is the one for the last value typed (none if that value
    is blank or cannot be encoded). *)
Theorem debounce_searches_the_last_query (values : list jsstring) :
  let sys := typed encodeURIComponent searchType values in
  let q := last values [] in
  query (live sys) = q /\
  requests (trace sys) = [] /\
  List.length (tasks sys) = 1 /\
  requests (trace (step sys (Resume 0))) = searchFor encodeURIComponent searchType q.
Proof.
  cbv zeta. unfold typed.
  destruct (typed_invariant values (mount encodeURIComponent searchType))
    as (Htrace & Htasks & Hquery); [reflexivity | reflexivity |].
  cbn [mount] in Hquery.
  set (sys := fold_left _ values _) in *.
  change (query (live (mount encodeURIComponent searchType))) with (@nil N) in Hquery.
  split; [exact Hquery|]. split; [rewrite Htrace; reflexivity|].
  split; [rewrite Htasks; reflexivity|].
  unfold step. rewrite Htasks. cbn [nth_error]. unfold without. rewrite Htasks, Htrace.
  cbn [remove_nth]. rewrite Hquery.
  unfold debounceCallback, searchFor, performSearch.
  destruct (truthy (trim (last values []))); [|reflexivity].
  cbn [exec live tasks trace].
  destruct (encodeURIComponent (last values [])); reflexivity.
Qed.

Ltac loop_cbn :=
  cbn [step exec live tasks trace nth_error without remove_nth app fold_left idle
         clearTimeout filter initial
         setQuery setResults setLoading setShowResults
         query results loading showResults].

Lemma truthy_trim_nonempty (q : jsstring) : truthy (trim q) = true -> q <> [].
Proof. intros Hq ->. discriminate. Qed.

(** X11: a search is not cancelled when the query changes.  With the
    search for [q1] still in flight, [q2] is typed and searched; the
    response for [q2] arrives and is shown; when the response for [q1]
    arrives after it, its list replaces the results although the input
    still holds [q2]. *)
Theorem late_response_overwrites_results
    (q1 q2 : jsstring) (e1 e2 : string) (r1 r2 : Response) (d1 d2 : Data.t) :
  truthy (trim q1) = true ->
  truthy (trim q2) = true ->
  q1 <> q2 ->
  encodeURIComponent q1 = Some e1 ->
  encodeURIComponent q2 = Some e2 ->
  payload r1 = Some (Obj d1) ->
  payload r2 = Some (Obj d2) ->
  let first := step (typed encodeURIComponent searchType [q1]) (Resume 0) in
  let second := step (onChange encodeURIComponent searchType q2 first) (Resume 1) in
  let answered2 := step (step second (Settle 1 (Fulfilled r2))) (Resume 1) in
  let answered1 := step (step answered2 (Settle 0 (Fulfilled r1))) (Resume 0) in
  requests (trace second) =
    [get (searchEndpoint searchType e1); get (searchEndpoint searchType e2)] /\
  query (live answered2) = q2 /\
  results (live answered2) = orEmpty (Data.results d2) /\
  query (live answered1) = q2 /\
  results (live answered1) = orEmpty (Data.results d1) /\
  loading (live answered1) = false /\
  tasks answered1 = [].
Proof.
  intros Ht1 Ht2 Hneq He1 He2 Hd1 Hd2.
  assert (Hq1 : q1 <> []) by (apply truthy_trim_nonempty; exact Ht1).
  intros first.
  eassert (Hfirst : first = _).
  { subst first. unfold typed, mount, onChange, sameValue, queryChanged, debouncedSearch.
    loop_cbn.
    destruct (list_eq_dec N.eq_dec q1 []) as [Heq | _]; [contradiction|].
    loop_cbn. rewrite Ht1. unfold performSearch. rewrite He1.
    loop_cbn. reflexivity. }
  clearbody first. subst first.
  intros second.
  eassert (Hsecond : second = _).
  { subst second. unfold onChange, sameValue, queryChanged, debouncedSearch.
    loop_cbn.
    destruct (list_eq_dec N.eq_dec q2 q1) as [Heq | _]; [congruence|].
    loop_cbn. rewrite Ht2. unfold performSearch. rewrite He2.
    loop_cbn. reflexivity. }
  clearbody second. subst second.
  intros answered2.
  eassert (Hanswered2 : answered2 = _).
  { subst answered2. loop_cbn. rewrite Hd2. loop_cbn. reflexivity. }
  clearbody answered2. subst answered2.
  intros answered1.
  eassert (Hanswered1 : answered1 = _).
  { subst answered1. loop_cbn. rewrite Hd1. loop_cbn. reflexivity. }
  clearbody answered1. subst answered1.
  loop_cbn. repeat split; reflexivity.
Qed.

End Searching.

Section SearchingWitnesses.

Import SearchBar SearchBarEvents.

(** X11 with "ai" typed, then "aid", and the answer for "ai", the list
    [A], arriving after the answer for "aid", the list [B]. *)
Lemma late_response_overwrites_results_witness :
  let encode := fun _ : jsstring => Some "q" in
  let q1 := [97; 105]%N in
  let q2 := [97; 105; 100]%N in
  let d1 := {| Data.recommendations := None; Data.liked := None;
               Data.disliked := None; Data.results := Some [candidateA] |} in
  let d2 := {| Data.recommendations := None; Data.liked := None;
               Data.disliked := None; Data.results := Some [candidateB] |} in
  let r1 := {| status := 200; payload := Some (Obj d1) |} in
  let r2 := {| status := 200; payload := Some (Obj d2) |} in
  let first := step (typed encode companies [q1]) (Resume 0) in
  let second := step (onChange encode companies q2 first) (Resume 1) in
  let answered2 := step (step second (Settle 1 (Fulfilled r2))) (Resume 1) in
  let answered1 := step (step answered2 (Settle 0 (Fulfilled r1))) (Resume 0) in
  requests (trace second) =
    [get (searchEndpoint companies "q"); get (searchEndpoint companies "q")] /\
  query (live answered2) = q2 /\
  results (live answered2) = [candidateB] /\
  query (live answered1) = q2 /\
  results (live answered1) = [candidateA] /\
  loading (live answered1) = false /\
  tasks answered1 = [].
Proof.
  intros encode q1 q2 d1 d2 r1 r2.
  apply (late_response_overwrites_results encode companies q1 q2 "q" "q" r1 r2 d1 d2);
    try reflexivity.
  discriminate.
Defined.

End SearchingWitnesses.


(** ** Tags *)

Section Tags.

Import SearchBar ExpandableTag.

Lemma headKept_trimStart (s : jsstring) : headKept (trimStart s).
Proof.
  induction s as [|c s IH]; cbn; [exact I|].
  destruct (isWhiteSpace c) eqn:Hc; [exact IH | exact Hc].
Qed.

Lemma trimStart_suffix (s : jsstring) : exists p, s = p ++ trimStart s.
Proof.
  induction s as [|c s (p & IH)]; cbn.
  - exists []. reflexivity.
  - destruct (isWhiteSpace c).
    + exists (c :: p). cbn. rewrite <- IH. reflexivity.
    + exists []. reflexivity.
Qed.

Lemma headKept_prefix (a b : jsstring) : headKept (a ++ b) -> headKept a.
Proof. destruct a; cbn; auto. Qed.

Lemma trim_trimmed (s : jsstring) : trim s <> [] -> trimmed (trim s).
Proof.
  intros Hs. split; [exact Hs|]. unfold trim, trimEnd in *.
  split.
  - destruct (trimStart_suffix (rev (trimStart s))) as (p & Hp).
    apply (headKept_prefix _ (rev p)).
    rewrite <- rev_app_distr, <- Hp, rev_involutive.
    apply headKept_trimStart.
  - rewrite rev_involutive. apply headKept_trimStart.
Qed.

Lemma blankb_blank (s : jsstring) : blankb s = true <-> blank s.
Proof.
  unfold blankb, blank. rewrite forallb_forall, Forall_forall. reflexivity.
Qed.

Lemma trim_nil_iff (s : jsstring) : trim s = [] <-> blankb s = true.
Proof.
  rewrite blankb_blank. split; [apply trim_empty | apply trim_blank].
Qed.

(** The seven values of the table are trimmed. *)
Lemma own_shortenings_trimmed (name short : jsstring) :
  own name shortenings = Some short -> trimmed short.
Proof.
  unfold shortenings. cbn [own].
  repeat (destruct (jsstring_eqb name _);
          [intros [= <-]; split; [discriminate | split; reflexivity] |]).
  discriminate.
Qed.

Section Engine.

Variable inherited : jsstring -> bool.

Lemma shortenName_text (name s : jsstring) :
  shortenName inherited name = Text s ->
  own name shortenings = Some s \/ s = name.
Proof.
  unfold shortenName. destruct (own name shortenings) as [short|].
  - intros [= ->]. left. reflexivity.
  - destruct (inherited name); [discriminate|]. intros [= ->]. right. reflexivity.
Qed.

Lemma shortenName_truthy (name : jsstring) :
  inherited [] = false ->
  truthyValue (shortenName inherited name) = truthy name.
Proof.
  intros Hempty. unfold shortenName.
  destruct (own name shortenings) as [short|] eqn:Hown.
  - destruct (own_shortenings_trimmed name short Hown) as (Hshort & _).
    destruct name as [|c name]; [discriminate|].
    destruct short; [congruence | reflexivity].
  - destruct name as [|c name].
    + rewrite Hempty. reflexivity.
    + destruct (inherited (c :: name)); reflexivity.
Qed.

Lemma truthy_trim (s : jsstring) : truthy (trim s) = negb (blankb s).
Proof.
  destruct (blankb s) eqn:Hs.
  - apply trim_nil_iff in Hs. rewrite Hs. reflexivity.
  - destruct (trim s) eqn:Htrim; [|reflexivity].
    apply trim_nil_iff in Htrim. congruence.
Qed.

Lemma filter_map_length (A B : Type) (f : B -> bool) (g : A -> B) (l : list A) :
  List.length (filter f (map g l)) = List.length (filter (fun x => f (g x)) l).
Proof.
  induction l as [|x l IH]; cbn; [reflexivity|].
  destruct (f (g x)); cbn; rewrite IH; reflexivity.
Qed.

Lemma items_length (values : jsstring) :
  inherited [] = false ->
  List.length (items inherited values) =
    List.length (filter (fun seg => negb (blankb seg)) (split comma values)).
Proof.
  intros Hempty. unfold items. rewrite filter_map_length.
  f_equal. apply filter_ext. intros seg.
  rewrite (shortenName_truthy _ Hempty). apply truthy_trim.
Qed.

(** X12: every string among the items of a tag is non-empty and has no
    white space at its start or its end, whatever the spacing around the
    commas of [values]. *)
Theorem items_are_trimmed (values s : jsstring) :
  In (Text s) (items inherited values) -> trimmed s.
Proof.
  unfold items. intros Hin. apply filter_In in Hin. destruct Hin as (Hin & Htruthy).
  apply in_map_iff in Hin. destruct Hin as (seg & Hseg & _).
  destruct (shortenName_text _ _ Hseg) as [Hown | ->].
  - apply (own_shortenings_trimmed _ _ Hown).
  - apply trim_trimmed. cbn in Htruthy. destruct (trim seg); [discriminate | discriminate].
Qed.

Lemma split_not_nil (sep : N) (s : jsstring) : split sep s <> [].
Proof.
  destruct s as [|c s]; cbn; [discriminate|].
  destruct (N.eqb c sep); [discriminate|].
  destruct (split sep s); discriminate.
Qed.

(** All segments are blank exactly when the string holds nothing but
    separators and white space. *)
Lemma split_all_blank (s : jsstring) :
  Forall (fun seg => blankb seg = true) (split comma s) <->
  Forall (fun c => isWhiteSpace c = true \/ c = comma) s.
Proof.
  induction s as [|c s IH]; cbn [split].
  - split; intros _; repeat constructor.
  - destruct (N.eqb c comma) eqn:Hc.
    + apply N.eqb_eq in Hc. split.
      * intros H. inversion H; subst. constructor; [right; reflexivity|].
        apply IH. assumption.
      * intros H. inversion H; subst. constructor; [reflexivity|].
        apply IH. assumption.
    + apply N.eqb_neq in Hc.
      destruct (split comma s) as [|seg rest] eqn:Hsplit;
        [destruct (split_not_nil comma s Hsplit)|].
      split.
      * intros H. inversion H as [|x l Hseg Hrest]; subst.
        cbn in Hseg. apply andb_prop in Hseg. destruct Hseg as (Hws & Hseg).
        constructor; [left; exact Hws|].
        apply IH. constructor; assumption.
      * intros H. inversion H as [|x l Hx Hs]; subst.
        destruct Hx as [Hws | Heq]; [|contradiction].
        apply IH in Hs. inversion Hs; subst.
        constructor; [|assumption]. cbn. rewrite Hws. assumption.
Qed.

Lemma filter_nil_iff (A : Type) (f : A -> bool) (l : list A) :
  List.length (filter f l) = 0 <-> Forall (fun x => f x = false) l.
Proof.
  induction l as [|x l IH]; cbn.
  - split; intros _; [constructor | reflexivity].
  - destruct (f x) eqn:Hx; cbn.
    + split; [discriminate|]. intros H. inversion H; subst. congruence.
    + rewrite IH. split; [intros H; constructor; assumption|].
      intros H. inversion H; assumption.
Qed.

(** X13: the count on the tag is the number of comma-separated segments
    of [values] that are not blank; the tag is rendered exactly when there
    is at least one, and keeps the expansion flag it is given. *)
Theorem tag_counts_non_blank_segments (values : jsstring) (expanded : bool) :
  inherited [] = false ->
  let n := List.length
             (filter (fun seg => negb (blankb seg)) (split comma values)) in
  match render inherited (Some values) expanded with
  | Nothing => n = 0
  | Tag count e _ => count = n /\ 0 < n /\ e = expanded
  end.
Proof.
  intros Hempty. cbv zeta. unfold render.
  destruct values as [|c values]; [reflexivity|]. cbn [truthy negb].
  rewrite (items_length _ Hempty).
  destruct (List.length (filter (fun seg => negb (blankb seg))
                           (split comma (c :: values)))) as [|n] eqn:Hn.
  - reflexivity.
  - cbn [Nat.eqb]. repeat split. lia.
Qed.

(** X14: the tag renders nothing exactly when [values] holds nothing but
    commas and white space. *)
Theorem tag_hidden_iff_no_content (values : jsstring) (expanded : bool) :
  inherited [] = false ->
  render inherited (Some values) expanded = Nothing <->
  Forall (fun c => isWhiteSpace c = true \/ c = comma) values.
Proof.
  intros Hempty. rewrite <- split_all_blank.
  assert (Hblank :
    Forall (fun seg => blankb seg = true) (split comma values) <->
    List.length (filter (fun seg => negb (blankb seg)) (split comma values)) = 0).
  { rewrite filter_nil_iff. split; intros H; eapply Forall_impl; try exact H;
      intros seg Hseg; cbv beta in *; destruct (blankb seg); auto; discriminate. }
  rewrite Hblank. unfold render.
  destruct values as [|c values]; [split; reflexivity|]. cbn [truthy negb].
  rewrite (items_length _ Hempty).
  destruct (List.length (filter (fun seg => negb (blankb seg))
                           (split comma (c :: values)))) as [|n].
  - split; reflexivity.
  - cbn [Nat.eqb]. split; discriminate.
Qed.

End Engine.

End Tags.

Section TagWitnesses.

Import SearchBar ExpandableTag.

(** X12 at the stages " Prototype (Seed) , Growth": "Seed" is an item. *)
Lemma items_are_trimmed_witness :
  trimmed (lit "Seed").
Proof.
  apply (items_are_trimmed (fun _ => false) (lit " Prototype (Seed) , Growth")
           (lit "Seed")).
  left. reflexivity.
Defined.

(** X13 at the industries "AI, Fintech,, Healthcare ": three items. *)
Lemma tag_counts_non_blank_segments_witness :
  match render (fun _ => false) (Some (lit "AI, Fintech,, Healthcare ")) true with
  | Nothing => 3 = 0
  | Tag count e _ => count = 3 /\ 0 < 3 /\ e = true
  end.
Proof.
  apply (tag_counts_non_blank_segments (fun _ => false)
           (lit "AI, Fintech,, Healthcare ") true).
  reflexivity.
Defined.

(** X14 at the value " , ,". *)
Lemma tag_hidden_iff_no_content_witness :
  render (fun _ => false) (Some (lit " , ,")) false = Nothing.
Proof.
  apply (proj2 (tag_hidden_iff_no_content (fun _ => false) (lit " , ,") false eq_refl)).
  repeat (constructor; [first [left; reflexivity | right; reflexivity]|]).
  constructor.
Defined.

End TagWitnesses.
